(** * torch_em: a shallow embedding of the command line, dataset and logging glue

    The development follows the Python sources file by file, one module per
    source file:

    - [Cli]         torch_em/cli.py
    - [TrainMito3d] experiments/shallow2deep/em-mitochondria/train_mito_3d.py
    - [Logger]      torch_em/self_training/logger.py
    - [Unetr]       torch_em/model/unetr.py
    - [M2caiseg]    torch_em/data/datasets/medical/m2caiseg.py
    - [Palm]        torch_em/data/datasets/medical/palm.py

    Python exceptions are values of [exn]; a computation that may raise
    returns a [res].  Calls into libraries that are not part of the sources
    (torch, glob, imageio, natsort, the download helpers, ...) are
    parameters: variables of the section that uses them, or fields of a
    [world] record that also answers for the file system. *)

From stdpp Require Import gmap strings list sorting.
From Stdlib Require Import Ascii Floats.

Open Scope Z_scope.

(** ** Python values, exceptions and results *)

(** The pieces of an f-string: literal text and the interpolated values. *)
Inductive frag :=
| Lit (s : string)
| FStr (s : string)
| FStrs (l : list string)
| FInts (l : list Z)
| FInt (z : Z)
| FFloat (f : float).

Inductive exn :=
| ValueError (msg : list frag)
| AttributeError (attr : string)
| RuntimeError (msg : list frag)
| TypeError
| IndexError
| ZeroDivisionError
| NotImplementedError
| AssertionError (msg : list frag)
| UnboundLocalError (var : string)
| FileNotFoundError (path : string)
| LibraryError (what : string).

Inductive res (A : Type) :=
| Ok (a : A)
| Raise (e : exn).
Arguments Ok {A} a.
Arguments Raise {A} e.

#[global] Instance res_ret : MRet res := fun A a => Ok a.
#[global] Instance res_bind : MBind res := fun A B f m =>
  match m with
  | Ok a => f a
  | Raise e => Raise e
  end.

Definition is_ok {A} (r : res A) : bool :=
  match r with Ok _ => true | Raise _ => false end.

(** The values an [argparse] namespace of these command lines holds. *)
Inductive pyval :=
| VNone
| VStr (s : string)
| VInt (z : Z)
| VFloat (f : float)
| VStrs (l : list string)
| VInts (l : list Z).

Definition opt_str (o : option string) : pyval :=
  match o with Some s => VStr s | None => VNone end.
Definition opt_strs (o : option (list string)) : pyval :=
  match o with Some l => VStrs l | None => VNone end.

(** [x is None] *)
Definition is_none (v : pyval) : bool :=
  match v with VNone => true | _ => false end.

(** [v == "literal"] for a string literal: only a [str] can be equal to it. *)
Definition eq_str (v : pyval) (s : string) : bool :=
  match v with VStr t => bool_decide (t = s) | _ => false end.

(** How a value shows inside an f-string. *)
Definition frag_of (v : pyval) : frag :=
  match v with
  | VInts l => FInts l
  | VStrs l => FStrs l
  | VStr s => FStr s
  | VInt z => FInt z
  | VFloat f => FFloat f
  | VNone => Lit "None"
  end.

(** Attribute access on a namespace object. *)
Definition getattr (ns : gmap string pyval) (a : string) : res pyval :=
  match ns !! a with
  | Some v => Ok v
  | None => Raise (AttributeError a)
  end.

(** ** Effects: a computation also leaves a trace of the calls it made *)

(** The events come first to last; an exception ends the trace where it was
    raised. *)
Definition io (E A : Type) : Type := list E * res A.

#[global] Instance io_ret {E} : MRet (io E) := fun A a => ([], Ok a).
#[global] Instance io_bind {E} : MBind (io E) := fun A B f m =>
  match m with
  | (t, Ok a) => let '(t', r) := f a in (t ++ t', r)
  | (t, Raise e) => (t, Raise e)
  end.

Definition emit {E} (e : E) : io E unit := ([e], Ok ()).
Definition lift {E A} (r : res A) : io E A := ([], r).
Definition raise {E A} (e : exn) : io E A := ([], Raise e).

(** ** Paths and sorting of strings *)

Fixpoint ends_with_slash (s : string) : bool :=
  match s with
  | EmptyString => false
  | String c EmptyString => bool_decide (c = "/"%char)
  | String _ s' => ends_with_slash s'
  end.

(** One step of [os.path.join] (posixpath): an absolute component replaces
    what came before, otherwise it is appended after exactly one slash. *)
Definition path_join (path b : string) : string :=
  if String.prefix "/" b then b
  else if bool_decide (path = "") || ends_with_slash path then path +:+ b
  else path +:+ "/" +:+ b.

Definition os_path_join (a : string) (p : list string) : string :=
  foldl path_join a p.

Fixpoint has_slash (s : string) : bool :=
  match s with
  | EmptyString => false
  | String c s' => bool_decide (c = "/"%char) || has_slash s'
  end.

(** [os.path.split(p)[-1]]: what follows the last slash. *)
Fixpoint basename (s : string) : string :=
  match s with
  | EmptyString => EmptyString
  | String _ s' => if has_slash s then basename s' else s
  end.

(** [s.rfind(c)] *)
Fixpoint rfind (c : ascii) (s : string) : option nat :=
  match s with
  | EmptyString => None
  | String a s' =>
      match rfind c s' with
      | Some i => Some (S i)
      | None => if bool_decide (a = c) then Some 0%nat else None
      end
  end.

(** [Path(p).stem] for the path of a file: the final component without its
    last suffix; a leading or a trailing dot starts no suffix. *)
Definition stem (p : string) : string :=
  let name := basename p in
  match rfind "."%char name with
  | Some i =>
      if bool_decide (0 < i)%nat && bool_decide (i < String.length name - 1)%nat
      then String.substring 0 i name else name
  | None => name
  end.

(** [s.replace(old, new)]: the occurrences of [old] are found from the
    left and do not overlap.  [skip] counts the characters of a replaced
    occurrence still to pass over. *)
Fixpoint str_replace_from (old new s : string) (skip : nat) : string :=
  match s with
  | EmptyString => EmptyString
  | String c s' =>
      match skip with
      | S k => str_replace_from old new s' k
      | O =>
          if String.prefix old s
          then new +:+ str_replace_from old new s' (String.length old - 1)
          else String c (str_replace_from old new s' 0)
      end
  end.

(** With an empty [old], [new] goes before every character and at the end. *)
Fixpoint str_interleave (new s : string) : string :=
  match s with
  | EmptyString => new
  | String c s' => new +:+ String c (str_interleave new s')
  end.

Definition str_replace (old new s : string) : string :=
  if bool_decide (old = "") then str_interleave new s
  else str_replace_from old new s 0.

(** The order of [str] values: by code point, first difference decides. *)
Definition str_le (s t : string) : Prop := String.leb s t = true.

#[global] Instance str_le_dec : RelDecision str_le.
Proof. intros s t. unfold str_le. apply _. Defined.

(** [sorted(l)] and [l.sort()] on a list of [str]. *)
Definition sorted (l : list string) : list string := merge_sort str_le l.

(** ** torch_em/cli.py *)
Module Cli.

(** What [parser.parse_args()] read off the command line for the parser of
    [_get_training_parser]: required options hold a value, optional ones
    default to [None], [n_iterations] and [train_fraction] to their defaults.
    [nargs="+"] options hold at least one item. *)
Record training_cli := {
  training_inputs : list string;
  training_labels : list string;
  training_input_key : option string;
  training_label_key : option string;
  validation_inputs : option (list string);
  validation_labels : option (list string);
  validation_input_key : option string;
  validation_label_key : option string;
  batch_size : Z;
  patch_shape : list Z;
  n_iterations : Z;
  label_mode : option string;
  name : option string;
  train_fraction : float;
}.

(** The namespace of [_get_training_parser(...).parse_args()]: one attribute
    per [add_argument], named by its long option. *)
Definition _get_training_parser (c : training_cli) : gmap string pyval :=
  list_to_map [
    ("training_inputs", VStrs (training_inputs c));
    ("training_labels", VStrs (training_labels c));
    ("training_input_key", opt_str (training_input_key c));
    ("training_label_key", opt_str (training_label_key c));
    ("validation_inputs", opt_strs (validation_inputs c));
    ("validation_labels", opt_strs (validation_labels c));
    ("validation_input_key", opt_str (validation_input_key c));
    ("validation_label_key", opt_str (validation_label_key c));
    ("batch_size", VInt (batch_size c));
    ("patch_shape", VInts (patch_shape c));
    ("n_iterations", VInt (n_iterations c));
    ("label_mode", opt_str (label_mode c));
    ("name", opt_str (name c));
    ("train_fraction", VFloat (train_fraction c))
  ].

(** [train_2d_unet] parses with the training parser as it is;
    [train_3d_unet] first adds [--scale_factors] (a json string, or [None]). *)
Definition train_2d_unet_args (c : training_cli) : gmap string pyval :=
  _get_training_parser c.
Definition train_3d_unet_args (c : training_cli) (scale_factors : option string)
  : gmap string pyval :=
  <["scale_factors" := opt_str scale_factors]> (_get_training_parser c).

Definition _get_offsets (ndim : Z) (scale_factors : pyval) : list (list Z) :=
  if bool_decide (ndim = 2) then
    [[-1; 0]; [0; -1]; [-3; 0]; [0; -3]; [-9; 0]; [0; -9]; [-27; 0]; [0; -27]]
  else if bool_decide (ndim = 3) && is_none scale_factors then
    [[-1; 0; 0]; [0; -1; 0]; [0; 0; -1];
     [-3; 0; 0]; [0; -3; 0]; [0; 0; -3];
     [-9; 0; 0]; [0; -9; 0]; [0; 0; -9];
     [-27; 0; 0]; [0; -27; 0]; [0; 0; -27]]
  else
    [[-1; 0; 0]; [0; -1; 0]; [0; 0; -1];
     [-2; 0; 0]; [0; -3; 0]; [0; 0; -3];
     [-3; 0; 0]; [0; -9; 0]; [0; 0; -9];
     [-4; 0; 0]; [0; -27; 0]; [0; 0; -27]].

(** The label transforms of [torch_em.transform.label] the command line picks
    from, with the keyword arguments they are built with. *)
Inductive label_trafo :=
| AffinityTransform (offsets : list (list Z)) (add_binary_target add_mask : bool)
| BoundaryTransform (add_binary_target : bool)
| labels_to_binary.

(** The tuple [label_modes] of [_get_loader], spelled as in the source. *)
Definition label_modes : list string :=
  ["affinties"; "affinities_and_foreground";
   "boundaries"; "boundaries_and_foreground";
   "foreground"].

(** The five modes [_get_loader] compares [args.label_mode] with. *)
Definition handled_modes : list string :=
  ["affinities"; "affinities_and_foreground";
   "boundaries"; "boundaries_and_foreground"; "foreground"].

(** [_get_loader], first block: "figure out the label transformations".
    The result is the value of the local [label_transform]. *)
Definition _get_loader_label_transform (args : gmap string pyval) (ndim : Z)
  : res (option label_trafo) :=
  mode ← getattr args "label_mode";
  if is_none mode then Ok None
  else if eq_str mode "affinities" then
    sf ← getattr args "scale_factors";
    Ok (Some (AffinityTransform (_get_offsets ndim sf) false true))
  else if eq_str mode "affinities_and_foreground" then
    sf ← getattr args "scale_factors";
    Ok (Some (AffinityTransform (_get_offsets ndim sf) true true))
  else if eq_str mode "boundaries" then Ok (Some (BoundaryTransform false))
  else if eq_str mode "boundaries_and_foreground" then Ok (Some (BoundaryTransform true))
  else if eq_str mode "foreground" then Ok (Some labels_to_binary)
  else
    (* the message reads [args.label_model] before anything is raised *)
    m ← getattr args "label_model";
    Raise (ValueError [Lit "Unknown label mode "; frag_of m;
                       Lit ", expect one of "; FStrs label_modes]).

(** [len(patch_shape)] and [patch_shape[0]] on the value of [args.patch_shape]. *)
Definition py_len (v : pyval) : res Z :=
  match v with
  | VInts l => Ok (Z.of_nat (length l))
  | VStrs l => Ok (Z.of_nat (length l))
  | VStr s => Ok (Z.of_nat (String.length s))
  | _ => Raise TypeError
  end.

Definition py_first_int (v : pyval) : res Z :=
  match v with
  | VInts (z :: _) => Ok z
  | VInts [] => Raise IndexError
  | _ => Raise TypeError
  end.

(** [_get_loader], second block: "validate the patch shape".  [and] does not
    evaluate [patch_shape[0]] when the length is 2. *)
Definition _get_loader_validate_patch_shape (patch_shape : pyval) (ndim : Z)
  : res unit :=
  if bool_decide (ndim = 2) then
    n ← py_len patch_shape;
    if bool_decide (n ≠ 2) then
      z ← py_first_int patch_shape;
      if bool_decide (z ≠ 1) then
        Raise (ValueError [Lit "Invalid patch_shape "; frag_of patch_shape;
                           Lit " for 2d data."])
      else Ok ()
    else Ok ()
  else if bool_decide (ndim = 3) then
    n ← py_len patch_shape;
    if bool_decide (n ≠ 3) then
      Raise (ValueError [Lit "Invalid patch_shape "; frag_of patch_shape;
                         Lit " for 3d data."])
    else Ok ()
  else Raise (RuntimeError [Lit "Invalid ndim: "; FInt ndim]).

(** What [_get_loader] returns: one loader, or the pair of the split. *)
Inductive loaders (Loader : Type) :=
| OneLoader (l : Loader)
| TwoLoaders (train val : Loader).
Arguments OneLoader {Loader} l.
Arguments TwoLoaders {Loader} train val.

Definition py_float (v : pyval) : res float :=
  match v with
  | VFloat f => Ok f
  | VInt z => Ok (PrimFloat.of_uint63 (Uint63.of_Z z))
  | _ => Raise TypeError
  end.

Section Loaders.
  (** The library calls of [_get_loader]: datasets and loaders are built by
      [torch_em] and [torch], which may raise. *)
  Variables Dataset Loader : Type.
  Variable default_segmentation_dataset :
    forall (input_paths input_key label_paths label_key patch_shape : pyval) (ndim : Z)
           (label_transform label_transform2 : option label_trafo), res Dataset.
  Variable random_split : Dataset -> list float -> res (Dataset * Dataset).
  Variable get_data_loader :
    forall (ds : Dataset) (batch_size : pyval) (shuffle : bool) (num_workers : Z), res Loader.
  Variable cpu_count : Z.

  (** [_get_loader], the rest: build the dataset and the loader(s). *)
Definition _get_loader_build
      (input_paths input_key label_paths label_key : pyval)
      (args : gmap string pyval) (ndim : Z) (perform_split : bool)
      (label_transform : option label_trafo) (patch_shape : pyval)
    : res (loaders Loader) :=
    ds ← default_segmentation_dataset input_paths input_key label_paths label_key
           patch_shape ndim label_transform None;
    let n_cpus := cpu_count in
    if perform_split then
      tf ← getattr args "train_fraction";
      f1 ← py_float tf;
      tf' ← getattr args "train_fraction";
      f2 ← py_float tf';
      let fractions := [f1; PrimFloat.sub PrimFloat.one f2] in
      '(ds_train, ds_val) ← random_split ds fractions;
      bs ← getattr args "batch_size";
      train_loader ← get_data_loader ds_train bs true n_cpus;
      bs' ← getattr args "batch_size";
      val_loader ← get_data_loader ds_val bs' true n_cpus;
      Ok (TwoLoaders train_loader val_loader)
    else
      bs ← getattr args "batch_size";
      loader ← get_data_loader ds bs true n_cpus;
      Ok (OneLoader loader).

Definition _get_loader
      (input_paths input_key label_paths label_key : pyval)
      (args : gmap string pyval) (ndim : Z) (perform_split : bool)
    : res (loaders Loader) :=
    label_transform ← _get_loader_label_transform args ndim;
    patch_shape ← getattr args "patch_shape";
    _ ← _get_loader_validate_patch_shape patch_shape ndim;
    _get_loader_build input_paths input_key label_paths label_key
      args ndim perform_split label_transform patch_shape.

  (** [a, b = value]: unpacking the result of [_get_loader]. *)
Definition unpack2 (l : loaders Loader) : res (Loader * Loader) :=
    match l with
    | TwoLoaders a b => Ok (a, b)
    | OneLoader _ => Raise TypeError
    end.

Definition _get_loaders (args : gmap string pyval) (ndim : Z)
    : res (Loader * Loader) :=
    vi ← getattr args "validation_inputs";
    if is_none vi then
      (* the two prints format [args.train_fraction] *)
      tf ← getattr args "train_fraction";
      _ ← py_float tf;
      ti ← getattr args "training_inputs";
      tik ← getattr args "training_input_key";
      tl ← getattr args "training_labels";
      tlk ← getattr args "training_label_key";
      r ← _get_loader ti tik tl tlk args ndim true;
      unpack2 r
    else
      ti ← getattr args "training_inputs";
      tik ← getattr args "training_input_key";
      tl ← getattr args "training_labels";
      tlk ← getattr args "training_label_key";
      train_loader ← _get_loader ti tik tl tlk args ndim false;
      vi' ← getattr args "validation_inputs";
      vk ← getattr args "validation_key";
      vl ← getattr args "validation_labels";
      vlk ← getattr args "validation_label_key";
      val_loader ← _get_loader vi' vk vl vlk args ndim false;
      match train_loader, val_loader with
      | OneLoader a, OneLoader b => Ok (a, b)
      | _, _ => Raise TypeError
      end.
End Loaders.

(** A library that records how it was called: a dataset is the call that
    built it, a split part is the dataset with the fractions and its index,
    a loader is its keyword arguments.  Used to run the command line on
    concrete arguments. *)
Record ds_call := {
  ds_input_paths : pyval;
  ds_input_key : pyval;
  ds_label_paths : pyval;
  ds_label_key : pyval;
  ds_patch_shape : pyval;
  ds_ndim : Z;
  ds_label_transform : option label_trafo;
  ds_label_transform2 : option label_trafo;
}.

Inductive rec_dataset :=
| WholeDataset (c : ds_call)
| SplitPart (c : rec_dataset) (fractions : list float) (i : nat).

Record rec_loader := {
  ld_dataset : rec_dataset;
  ld_batch_size : pyval;
  ld_shuffle : bool;
  ld_num_workers : Z;
}.

Definition rec_default_segmentation_dataset
    (input_paths input_key label_paths label_key patch_shape : pyval) (ndim : Z)
    (label_transform label_transform2 : option label_trafo) : res rec_dataset :=
  Ok (WholeDataset {|
    ds_input_paths := input_paths; ds_input_key := input_key;
    ds_label_paths := label_paths; ds_label_key := label_key;
    ds_patch_shape := patch_shape; ds_ndim := ndim;
    ds_label_transform := label_transform;
    ds_label_transform2 := label_transform2 |}).

Definition rec_random_split (ds : rec_dataset) (fractions : list float)
  : res (rec_dataset * rec_dataset) :=
  Ok (SplitPart ds fractions 0, SplitPart ds fractions 1).

Definition rec_get_data_loader (ds : rec_dataset) (batch_size : pyval)
    (shuffle : bool) (num_workers : Z) : res rec_loader :=
  Ok {| ld_dataset := ds; ld_batch_size := batch_size;
        ld_shuffle := shuffle; ld_num_workers := num_workers |}.

Definition rec_get_loader :=
  _get_loader rec_dataset rec_loader rec_default_segmentation_dataset
    rec_random_split rec_get_data_loader 4.

Definition rec_get_loaders :=
  _get_loaders rec_dataset rec_loader rec_default_segmentation_dataset
    rec_random_split rec_get_data_loader 4.

(** Command lines used as examples below. *)
Definition cli_example : training_cli := {|
  training_inputs := ["train.h5"];
  training_labels := ["train.h5"];
  training_input_key := Some "raw";
  training_label_key := Some "labels";
  validation_inputs := None;
  validation_labels := None;
  validation_input_key := None;
  validation_label_key := None;
  batch_size := 1;
  patch_shape := [256; 256];
  n_iterations := 25000;
  label_mode := None;
  name := None;
  train_fraction := 0x1.999999999999ap-1%float;
|}.

Definition with_label_mode (m : option string) (c : training_cli) : training_cli :=
  {| training_inputs := training_inputs c;
     training_labels := training_labels c;
     training_input_key := training_input_key c;
     training_label_key := training_label_key c;
     validation_inputs := validation_inputs c;
     validation_labels := validation_labels c;
     validation_input_key := validation_input_key c;
     validation_label_key := validation_label_key c;
     batch_size := batch_size c;
     patch_shape := patch_shape c;
     n_iterations := n_iterations c;
     label_mode := m;
     name := name c;
     train_fraction := train_fraction c |}.

Definition with_patch_shape (p : list Z) (c : training_cli) : training_cli :=
  {| training_inputs := training_inputs c;
     training_labels := training_labels c;
     training_input_key := training_input_key c;
     training_label_key := training_label_key c;
     validation_inputs := validation_inputs c;
     validation_labels := validation_labels c;
     validation_input_key := validation_input_key c;
     validation_label_key := validation_label_key c;
     batch_size := batch_size c;
     patch_shape := p;
     n_iterations := n_iterations c;
     label_mode := label_mode c;
     name := name c;
     train_fraction := train_fraction c |}.

Definition with_validation (inputs labels : list string) (c : training_cli)
  : training_cli :=
  {| training_inputs := training_inputs c;
     training_labels := training_labels c;
     training_input_key := training_input_key c;
     training_label_key := training_label_key c;
     validation_inputs := Some inputs;
     validation_labels := Some labels;
     validation_input_key := Some "raw";
     validation_label_key := Some "labels";
     batch_size := batch_size c;
     patch_shape := patch_shape c;
     n_iterations := n_iterations c;
     label_mode := label_mode c;
     name := name c;
     train_fraction := train_fraction c |}.

(** [needle in s] for two strings: [needle] starts at some position of [s]. *)
Fixpoint str_contains (needle s : string) : bool :=
  String.prefix needle s
  || match s with
     | EmptyString => false
     | String _ s' => str_contains needle s'
     end.

(** ["literal" in v]: substring test on a [str], membership on a list;
    [None], an [int] and a [float] are not iterable. *)
Definition py_in_str (needle : string) (v : pyval) : res bool :=
  match v with
  | VStr s => Ok (str_contains needle s)
  | VStrs l => Ok (bool_decide (needle ∈ l))
  | VInts _ => Ok false
  | _ => Raise TypeError
  end.

(** The losses of [torch_em.loss] the training functions build. *)
Inductive loss_transform :=
| ApplyAndRemoveMask (masking_method : string).

Inductive loss_fn :=
| DiceLoss
| LossWrapper (loss : loss_fn) (transform : loss_transform).

(** [shape[i]] *)
Definition shape_at (shape : list Z) (i : nat) : res Z :=
  match shape !! i with
  | Some z => Ok z
  | None => Raise IndexError
  end.

Section Training.
  Variables Dataset Loader Model Trainer Json : Type.
  Variable default_segmentation_dataset :
    forall (input_paths input_key label_paths label_key patch_shape : pyval) (ndim : Z)
           (label_transform label_transform2 : option label_trafo), res Dataset.
  Variable random_split : Dataset -> list float -> res (Dataset * Dataset).
  Variable get_data_loader :
    forall (ds : Dataset) (batch_size : pyval) (shuffle : bool) (num_workers : Z), res Loader.
  Variable cpu_count : Z.
  (** [next(iter(loader))]: the shapes of the batch [x, y]. *)
  Variable next_batch : Loader -> res (list Z * list Z).
  Variable UNet2d : Z -> Z -> res Model.
  Variable UNet3d : Z -> Z -> res Model.
  Variable AnisotropicUNet : Z -> Z -> Json -> res Model.
  (** [json.loads]: [None] is the Python [None], which the document [null]
      decodes to; [Json] holds every other value. *)
  Variable json_loads : string -> res (option Json).
  (** [uuid.uuid1()], printed *)
  Variable uuid1 : string.
  Variable default_segmentation_trainer :
    forall (name : pyval) (model : Model) (train_loader val_loader : Loader)
           (loss metric : loss_fn) (compile_model : bool), res Trainer.
  Variable fit : Trainer -> pyval -> res unit.

Definition _determine_channels (train_loader : Loader) (args : gmap string pyval)
  : res (Z * Z) :=
  '(x, y) ← next_batch train_loader;
  in_channels ← shape_at x 1;
  out_channels ← shape_at y 1;
  Ok (in_channels, out_channels).

(** The loss both training functions pick from [args.label_mode]. *)
Definition train_unet_loss (args : gmap string pyval) : res loss_fn :=
  mode ← getattr args "label_mode";
  affinities ← py_in_str "affinities" mode;
  if affinities : bool
  then Ok (LossWrapper DiceLoss (ApplyAndRemoveMask "multiply"))
  else Ok DiceLoss.

(** The rest of both training functions: name, trainer and [fit]. *)
Definition train_unet_fit (prefix : string) (args : gmap string pyval)
    (model : Model) (train_loader val_loader : Loader) (loss : loss_fn)
  : res unit :=
  nm ← getattr args "name";
  let name := if is_none nm then VStr (prefix +:+ uuid1) else nm in
  trainer ← default_segmentation_trainer name model train_loader val_loader
              loss loss false;
  n ← getattr args "n_iterations";
  fit trainer n.

(** [train_2d_unet], from the parsed [args] on. *)
Definition train_2d_unet (args : gmap string pyval) : res unit :=
  '(train_loader, val_loader) ←
    _get_loaders Dataset Loader default_segmentation_dataset random_split
      get_data_loader cpu_count args 2;
  '(in_channels, out_channels) ← _determine_channels train_loader args;
  model ← UNet2d in_channels out_channels;
  loss ← train_unet_loss args;
  train_unet_fit "2d-unet-training-" args model train_loader val_loader loss.

(** [train_3d_unet], from the parsed [args] on. *)
Definition train_3d_unet (args : gmap string pyval) : res unit :=
  sf ← getattr args "scale_factors";
  scale_factors ←
    (if is_none sf then Ok None
     else match sf with
          | VStr s => json_loads s
          | _ => Raise TypeError
          end);
  '(train_loader, val_loader) ←
    _get_loaders Dataset Loader default_segmentation_dataset random_split
      get_data_loader cpu_count args 3;
  '(in_channels, out_channels) ← _determine_channels train_loader args;
  model ←
    match scale_factors with
    | None => UNet3d in_channels out_channels
    | Some j => AnisotropicUNet in_channels out_channels j
    end;
  loss ← train_unet_loss args;
  train_unet_fit "3d-unet-training-" args model train_loader val_loader loss.
End Training.

(** The recording library, continued: a model is its constructor call, a
    trainer its keyword arguments; batches hold one grey image each. *)
Inductive rec_model :=
| RecUNet2d (in_channels out_channels : Z)
| RecUNet3d (in_channels out_channels : Z)
| RecAnisotropicUNet (in_channels out_channels : Z) (scale_factors : string).

Record rec_trainer := {
  tr_name : pyval;
  tr_model : rec_model;
  tr_train_loader : rec_loader;
  tr_val_loader : rec_loader;
  tr_loss : loss_fn;
  tr_metric : loss_fn;
  tr_compile_model : bool;
}.

Definition rec_train_2d_unet :=
  train_2d_unet rec_dataset rec_loader rec_model rec_trainer
    rec_default_segmentation_dataset rec_random_split rec_get_data_loader 4
    (fun _ => Ok ([1; 1; 256; 256], [1; 2; 256; 256]))
    (fun i o => Ok (RecUNet2d i o))
    "0000" 
    (fun name model tl vl loss metric cm =>
       Ok {| tr_name := name; tr_model := model; tr_train_loader := tl;
             tr_val_loader := vl; tr_loss := loss; tr_metric := metric;
             tr_compile_model := cm |})
    (fun _ _ => Ok ()).

(** The decoded value is kept as its text; [null] decodes to [None]. *)
Definition rec_json_loads (s : string) : res (option string) :=
  Ok (if String.eqb s "null" then None else Some s).

Definition rec_train_3d_unet :=
  train_3d_unet rec_dataset rec_loader rec_model rec_trainer string
    rec_default_segmentation_dataset rec_random_split rec_get_data_loader 4
    (fun _ => Ok ([1; 1; 32; 256; 256], [1; 2; 32; 256; 256]))
    (fun i o => Ok (RecUNet3d i o))
    (fun i o sf => Ok (RecAnisotropicUNet i o sf))
    rec_json_loads
    "0000"
    (fun name model tl vl loss metric cm =>
       Ok {| tr_name := name; tr_model := model; tr_train_loader := tl;
             tr_val_loader := vl; tr_loss := loss; tr_metric := metric;
             tr_compile_model := cm |})
    (fun _ _ => Ok ()).

(** *** CLI for prediction *)

(** What [parse_args()] read for the parser of [_get_prediction_parser]. *)
Record prediction_cli := {
  pc_checkpoint : string;
  pc_input_path : string;
  pc_input_key : option string;
  pc_output_path : string;
  pc_output_key : option string;
  pc_chunks : option (list Z);
  pc_compression : option string;
}.

Definition opt_ints (o : option (list Z)) : pyval :=
  match o with Some l => VInts l | None => VNone end.

Definition _get_prediction_parser (c : prediction_cli) : gmap string pyval :=
  list_to_map [
    ("checkpoint", VStr (pc_checkpoint c));
    ("input_path", VStr (pc_input_path c));
    ("input_key", opt_str (pc_input_key c));
    ("output_path", VStr (pc_output_path c));
    ("output_key", opt_str (pc_output_key c));
    ("chunks", opt_ints (pc_chunks c));
    ("compression", opt_str (pc_compression c))
  ].

(** The namespace of [predict_with_tiling]: the prediction parser with
    [--block_shape] (required, at least one entry), [--halo] and [--devices]. *)
Definition predict_with_tiling_args (c : prediction_cli) (block_shape : list Z)
    (halo : option (list Z)) (devices : option (list string)) : gmap string pyval :=
  <["devices" := opt_strs devices]>
    (<["halo" := opt_ints halo]>
       (<["block_shape" := VInts block_shape]> (_get_prediction_parser c))).

(** [l[0]] *)
Definition py_first (v : pyval) : res pyval :=
  match v with
  | VInts (z :: _) => Ok (VInt z)
  | VStrs (s :: _) => Ok (VStr s)
  | VInts [] | VStrs [] => Raise IndexError
  | _ => Raise TypeError
  end.

Section Prediction.
  Variables Model Array : Type.
  (** [pred.ndim] *)
  Variable array_ndim : Array -> Z.
  (** [torch_em.util.get_trainer(checkpoint, device=device).model] *)
  Variable get_trainer_model : pyval -> pyval -> res Model.
  Variable imread : pyval -> res Array.
  (** [open_file(path, "r")[key]] *)
  Variable open_file_read : pyval -> pyval -> res Array.
  Variable imwrite : pyval -> Array -> res unit.
  (** [require_dataset] with its keyword arguments, and [ds[:] = pred] *)
  Variable require_dataset_write :
    forall (path key : pyval) (chunks compression : option pyval)
           (n_threads : Z) (pred : Array), res unit.
  Variable predict_with_halo :
    forall (input_ : Array) (model : Model) (gpu_ids : pyval)
           (block_shape halo : pyval) (pred_2d : bool), res Array.
  Variable cuda_is_available : bool.
  Variable cpu_count : Z.

(** The calls that reach the world outside, in order. *)
Inductive pred_event :=
| GetTrainer (checkpoint device : pyval)
| Imread (path : pyval)
| OpenFileRead (path key : pyval)
| PredictWithHalo (gpu_ids block_shape halo : pyval) (pred_2d : bool)
| Imwrite (path : pyval) (pred : Array)
| RequireDatasetWrite (path key : pyval) (chunks compression : option pyval)
    (n_threads : Z) (pred : Array).

Definition _prediction (args : gmap string pyval)
    (predict : Model -> Array -> io pred_event Array) (device : pyval)
  : io pred_event unit :=
  checkpoint ← lift (getattr args "checkpoint");
  _ ← emit (GetTrainer checkpoint device);
  model ← lift (get_trainer_model checkpoint device);
  input_key ← lift (getattr args "input_key");
  pred ←
    (if is_none input_key then
       input_path ← lift (getattr args "input_path");
       _ ← emit (Imread input_path);
       input_ ← lift (imread input_path);
       predict model input_
     else
       input_path ← lift (getattr args "input_path");
       input_key ← lift (getattr args "input_key");
       _ ← emit (OpenFileRead input_path input_key);
       input_ ← lift (open_file_read input_path input_key);
       predict model input_);
  output_key ← lift (getattr args "output_key");
  if is_none output_key then
    output_path ← lift (getattr args "output_path");
    _ ← emit (Imwrite output_path pred);
    lift (imwrite output_path pred)
  else
    chunks ← lift (getattr args "chunks");
    kw_chunks ←
      (if is_none chunks then mret None
       else
         n ← lift (py_len chunks);
         if bool_decide (n = array_ndim pred) then mret (Some chunks)
         else raise (AssertionError []));
    compression ← lift (getattr args "compression");
    let kw_compression := if is_none compression then None else Some compression in
    output_path ← lift (getattr args "output_path");
    _ ← emit (RequireDatasetWrite output_path output_key kw_chunks kw_compression
                cpu_count pred);
    lift (require_dataset_write output_path output_key kw_chunks kw_compression
            cpu_count pred).

(** The function [predict] that [predict_with_tiling] hands to [_prediction]. *)
Definition predict_with_tiling_predict (devices block_shape halo : pyval)
    (pred_2d : bool) (model : Model) (input_ : Array) : io pred_event Array :=
  _ ← emit (PredictWithHalo devices block_shape halo pred_2d);
  lift (predict_with_halo input_ model devices block_shape halo pred_2d).

(** [predict_with_tiling], from the parsed [args] on.  [pred_2d] says that
    [_pred_2d] is the prediction function rather than [None]. *)
Definition predict_with_tiling (args : gmap string pyval) : io pred_event unit :=
  block_shape ← lift (getattr args "block_shape");
  h ← lift (getattr args "halo");
  halo ←
    (if is_none h then
       n ← lift (py_len block_shape);
       mret (VInts (replicate (Z.to_nat n) 0))
     else lift (getattr args "halo"));
  lh ← lift (py_len halo);
  lb ← lift (py_len block_shape);
  if bool_decide (lh = lb) then
    d ← lift (getattr args "devices");
    devices ←
      (if is_none d then
         mret (VStrs [if cuda_is_available then "cuda" else "cpu"])
       else lift (getattr args "devices"));
    b0 ← lift (py_first block_shape);
    let pred_2d := match b0 with VInt z => bool_decide (z = 1) | _ => false end in
    device ← lift (py_first devices);
    _prediction args (predict_with_tiling_predict devices block_shape halo pred_2d) device
  else raise (AssertionError []).
End Prediction.

Arguments GetTrainer {Array} checkpoint device.
Arguments Imread {Array} path.
Arguments OpenFileRead {Array} path key.
Arguments PredictWithHalo {Array} gpu_ids block_shape halo pred_2d.
Arguments Imwrite {Array} path pred.
Arguments RequireDatasetWrite {Array} path key chunks compression n_threads pred.

(** A prediction command line and a library in which every call succeeds
    on arrays known by their number of dimensions. *)
Definition prediction_example : prediction_cli := {|
  pc_checkpoint := "checkpoints/unet";
  pc_input_path := "volume.h5";
  pc_input_key := Some "raw";
  pc_output_path := "prediction.h5";
  pc_output_key := Some "pred";
  pc_chunks := Some [64; 64];
  pc_compression := None;
|}.

Definition rec_predict_with_tiling :=
  predict_with_tiling unit Z (fun a => a)
    (fun _ _ => Ok ()) (fun _ => Ok 3) (fun _ _ => Ok 3)
    (fun _ _ => Ok ()) (fun _ _ _ _ _ _ => Ok ())
    (fun _ _ _ _ _ _ => Ok 3) false 8.

End Cli.

(** ** experiments/shallow2deep/em-mitochondria/train_mito_3d.py *)
Module TrainMito3d.

Definition DATA_ROOT : string := "/scratch/pape/s2d-mitochondria".
Definition DATASETS : list string := ["lucchi"; "platy"; "urocell"].

Definition normalize_datasets (datasets : list string) : res (list string) :=
  let wrong_ds :=
    elements ((list_to_set datasets : gset string) ∖ list_to_set DATASETS) in
  if bool_decide (wrong_ds <> []) then
    Raise (ValueError [Lit "Unkown datasets: "; FStrs wrong_ds;
                       Lit ". Only "; FStrs DATASETS; Lit " are supported"])
  else
    let datasets := sorted datasets in
    Ok datasets.

(** The transforms handed to the forest preparation. *)
Inductive transform :=
| raw_normalize
| ForegroundTransform (ndim : Z).

(** Keyword arguments of [shallow2deep.prepare_shallow2deep]. *)
Record prepare_kwargs := {
  raw_paths : list string;
  raw_key : string;
  label_paths : list string;
  label_key : string;
  patch_shape_min : list Z;
  patch_shape_max : list Z;
  n_forests : Z;
  n_threads : Z;
  output_folder : string;
  ndim : Z;
  raw_transform : transform;
  label_transform : transform;
  is_seg_dataset : bool;
}.

(** What [shallow2deep.prepare_shallow2deep_advanced] takes besides. *)
Record advanced_kwargs := {
  forests_per_stage : Z;
  sample_fraction_per_stage : float;
  sampling_strategy : string;
  sampling_kwargs : gmap string (list Z);
}.

Inductive event :=
| Makedirs (path : string)
| RequireLucchiData (path : string) (download : bool)
| RequireUrocellData (path : string) (download : bool)
| PrepareShallow2deep (kw : prepare_kwargs)
| PrepareShallow2deepAdvanced (kw : prepare_kwargs) (adv : advanced_kwargs).

(** The world outside: what the file system answers and what the library
    calls return when [require_rfs_ds] reaches them. *)
Record world := {
  glob : string -> list string;
  path_exists : string -> bool;
  (** ["key" in open_file(path, "r")] *)
  file_has_key : string -> string -> bool;
  _require_lucchi_data : string -> bool -> res unit;
  _require_urocell_data : string -> bool -> res unit;
  prepare_shallow2deep : prepare_kwargs -> res unit;
  prepare_shallow2deep_advanced : prepare_kwargs -> advanced_kwargs -> res unit;
}.

(** The module-level [args] of the script: [require_rfs_ds] reads
    [args.n_rfs] and [args.n_threads] from it. *)
Record script_args := {
  args_n_rfs : Z;
  args_n_threads : Z;
}.

(** [paths[:-1]] *)
Definition all_but_last (l : list string) : list string :=
  take (length l - 1)%nat l.

Definition require_ds (w : world) (dataset : string)
  : io event (list string * string * string) :=
  _ ← emit (Makedirs DATA_ROOT);
  let data_path := os_path_join DATA_ROOT [dataset] in
  if bool_decide (dataset = "lucchi") then
    _ ← emit (RequireLucchiData data_path true);
    _ ← lift (_require_lucchi_data w data_path true);
    let paths := [os_path_join data_path ["lucchi_train.h5"]] in
    if forallb (path_exists w) paths then mret (paths, "raw", "labels")
    else raise (AssertionError [FStrs paths])
  else if bool_decide (dataset = "platy") then
    raise NotImplementedError
  else if bool_decide (dataset = "urocell") then
    _ ← emit (RequireUrocellData data_path true);
    _ ← lift (_require_urocell_data w data_path true);
    let paths := glob w (os_path_join data_path ["*.h5"]) in
    let paths := sorted paths in
    let paths := filter (fun pp => file_has_key w pp "labels/mito" = true) paths in
    let paths := all_but_last paths in
    mret (paths, "raw", "labels/mito")
  else
    (* no branch bound [paths] *)
    raise (UnboundLocalError "paths").

Definition require_rfs_ds (w : world) (args : script_args)
    (dataset : string) (n_rfs : Z) (sampling_strategy : string) : io event unit :=
  let out_folder :=
    os_path_join DATA_ROOT ["rfs3d-" +:+ sampling_strategy; dataset] in
  _ ← emit (Makedirs out_folder);
  if bool_decide (Z.of_nat (length (glob w (os_path_join out_folder ["*.pkl"]))) = n_rfs)
  then mret ()
  else
    let patch_shape_min := [64; 64; 64] in
    let patch_shape_max := [96; 128; 128] in
    let raw_transform := raw_normalize in
    let label_transform := ForegroundTransform 3 in
    '(paths, raw_key, label_key) ← require_ds w dataset;
    let kw := {|
      raw_paths := paths; raw_key := raw_key;
      label_paths := paths; label_key := label_key;
      patch_shape_min := patch_shape_min; patch_shape_max := patch_shape_max;
      n_forests := args_n_rfs args; n_threads := args_n_threads args;
      output_folder := out_folder; ndim := 3;
      raw_transform := raw_transform; label_transform := label_transform;
      is_seg_dataset := true |} in
    if bool_decide (sampling_strategy = "vanilla") then
      _ ← emit (PrepareShallow2deep kw);
      lift (prepare_shallow2deep w kw)
    else
      let sampling_kwargs : gmap string (list Z) :=
        if bool_decide (sampling_strategy = "worst_tiles")
        then {["tile_shape" := [16; 16; 16]]} else ∅ in
      let adv := {|
        forests_per_stage := 25;
        sample_fraction_per_stage := 0x1.999999999999ap-5%float;
        sampling_strategy := sampling_strategy;
        sampling_kwargs := sampling_kwargs |} in
      _ ← emit (PrepareShallow2deepAdvanced kw adv);
      lift (prepare_shallow2deep_advanced w kw adv).

Definition require_rfs (w : world) (args : script_args)
    (datasets : list string) (n_rfs : Z) (sampling_strategy : string) : io event unit :=
  foldl (fun acc ds => _ ← acc; require_rfs_ds w args ds n_rfs sampling_strategy)
        (mret ()) datasets.

(** The keyword arguments both preparation calls share. *)
Definition kwargs_of (args : script_args) (out_folder : string)
    (paths : list string) (raw_key label_key : string) : prepare_kwargs := {|
  raw_paths := paths; raw_key := raw_key;
  label_paths := paths; label_key := label_key;
  patch_shape_min := [64; 64; 64]; patch_shape_max := [96; 128; 128];
  n_forests := args_n_rfs args; n_threads := args_n_threads args;
  output_folder := out_folder; ndim := 3;
  raw_transform := raw_normalize; label_transform := ForegroundTransform 3;
  is_seg_dataset := true |}.

(** What the advanced path adds for a strategy. *)
Definition advanced_of (strategy : string) : advanced_kwargs := {|
  forests_per_stage := 25;
  sample_fraction_per_stage := 0x1.999999999999ap-5%float;
  sampling_strategy := strategy;
  sampling_kwargs :=
    if bool_decide (strategy = "worst_tiles")
    then {["tile_shape" := [16; 16; 16]]} else ∅ |}.

(** A world with an empty data root in which every library call succeeds. *)
Definition empty_world : world := {|
  glob := fun _ => [];
  path_exists := fun _ => true;
  file_has_key := fun _ _ => true;
  _require_lucchi_data := fun _ _ => Ok ();
  _require_urocell_data := fun _ _ => Ok ();
  prepare_shallow2deep := fun _ => Ok ();
  prepare_shallow2deep_advanced := fun _ _ => Ok ();
|}.

Definition default_args : script_args := {| args_n_rfs := 500; args_n_threads := 32 |}.


(** *** Datasets, loaders and training *)

(** The slices [get_loader] hands to [get_ds] as [path_selection]:
    [np.s_[:-1]] and [np.s_[-1:]].  A slice object is always true. *)
Inductive selection :=
| s_all_but_last
| s_last.

(** [paths[-1:]] *)
Definition last_only (l : list string) : list string :=
  drop (length l - 1)%nat l.

Definition select (s : selection) (l : list string) : list string :=
  match s with
  | s_all_but_last => all_but_last l
  | s_last => last_only l
  end.

Inductive ds_label_transform :=
| BoundaryTransform (ndim : Z) (add_binary_target : bool).

(** The arguments of [get_shallow2deep_dataset]. *)
Record dataset_kwargs := {
  ds_raw_paths : list string;
  ds_raw_key : string;
  ds_label_paths : list string;
  ds_label_key : string;
  ds_rf_paths : list string;
  ds_patch_shape : list Z;
  ds_raw_transform : transform;
  ds_label_transform_ : ds_label_transform;
  ds_n_samples : Z;
  ds_ndim : Z;
}.

Inductive loss_transform :=
| MaskIgnoreLabel.

Inductive loss_fn :=
| DiceLoss
| LossWrapper (loss : loss_fn) (transform : loss_transform).

(** The parsed command line of the script.  [batch_size], [device] and
    [n_iterations] are the options [torch_em.util.parser_helper] defines. *)
Record train_args := {
  ta_datasets : list string;
  ta_n_rfs : Z;
  ta_n_threads : Z;
  ta_sampling_strategy : string;
  ta_batch_size : Z;
  ta_device : pyval;
  ta_n_iterations : Z;
}.

(** The module-level [args] that [require_rfs_ds] reads is the namespace
    [train_shallow2deep] was called with. *)
Definition script_args_of (args : train_args) : script_args :=
  {| args_n_rfs := ta_n_rfs args; args_n_threads := ta_n_threads args |}.

Section Training.
  Variables Dataset Loader Model Trainer : Type.
  Variable get_shallow2deep_dataset : dataset_kwargs -> res Dataset.
  (** [ConcatDataset] on the unpacked list [datasets] *)
  Variable ConcatDataset : list Dataset -> res Dataset.
  (** [DataLoader(ds, shuffle=, batch_size=, num_workers=)] *)
  Variable DataLoader : Dataset -> bool -> Z -> Z -> res Loader.
  (** [loader.shuffle = value] *)
  Variable set_shuffle : Loader -> bool -> Loader.
  (** [UNet3d(in_channels=, out_channels=, final_activation=, depth=,
      initial_features=)] *)
  Variable UNet3d : Z -> Z -> string -> Z -> Z -> res Model.
  (** [default_segmentation_trainer(name, model, train_loader, val_loader,
      learning_rate=, loss=, device=, log_image_interval=)] *)
  Variable default_segmentation_trainer :
    string -> Model -> Loader -> Loader -> float -> loss_fn -> pyval -> Z -> res Trainer.
  Variable fit : Trainer -> Z -> res unit.

Definition get_ds (w : world) (file_pattern rf_pattern : string) (n_samples : Z)
    (label_key : string) (path_selection : option selection) (check_labels : bool)
  : res Dataset :=
  let raw_transform := raw_normalize in
  let label_transform := BoundaryTransform 3 true in
  let patch_shape := [64; 256; 256] in
  let paths := glob w file_pattern in
  let paths := sorted paths in
  let paths :=
    if check_labels then filter (fun pp => file_has_key w pp label_key = true) paths
    else paths in
  let paths :=
    match path_selection with
    | Some s => select s paths
    | None => paths
    end in
  if bool_decide (0 < length paths)%nat then
    let rf_paths := glob w rf_pattern in
    let rf_paths := sorted rf_paths in
    if bool_decide (0 < length rf_paths)%nat then
      let raw_key := "raw" in
      get_shallow2deep_dataset {|
        ds_raw_paths := paths; ds_raw_key := raw_key;
        ds_label_paths := paths; ds_label_key := label_key;
        ds_rf_paths := rf_paths;
        ds_patch_shape := patch_shape;
        ds_raw_transform := raw_transform;
        ds_label_transform_ := label_transform;
        ds_n_samples := n_samples; ds_ndim := 3 |}
    else Raise (AssertionError [])
  else Raise (AssertionError []).

Definition get_loader (w : world) (args : train_args) (split : string)
    (dataset_names : list string) : res Loader :=
  let datasets := [] in
  let n_samples := if bool_decide (split = "train") then 500 else 25 in
  datasets ←
    (if bool_decide ("lucchi" ∈ dataset_names) then
       let ds_name := "kasthuri" in
       let split_ := if bool_decide (split = "val") then "test" else split in
       let file_pattern :=
         os_path_join DATA_ROOT [ds_name; "*_" +:+ split_ +:+ ".h5"] in
       let rf_pattern :=
         os_path_join DATA_ROOT
           ["rfs3d-" +:+ ta_sampling_strategy args; ds_name; "*.pkl"] in
       d ← get_ds w file_pattern rf_pattern n_samples "labels" None false;
       mret (datasets ++ [d])
     else mret datasets);
  datasets ←
    (if bool_decide ("urocell" ∈ dataset_names) then
       let ds_name := "urocell" in
       let file_pattern := os_path_join DATA_ROOT [ds_name; "*.h5"] in
       let rf_pattern :=
         os_path_join DATA_ROOT
           ["rfs3d-" +:+ ta_sampling_strategy args; ds_name; "*.pkl"] in
       let path_selection :=
         if bool_decide (split = "train") then s_all_but_last else s_last in
       d ← get_ds w file_pattern rf_pattern n_samples "labels/mito"
             (Some path_selection) true;
       mret (datasets ++ [d])
     else mret datasets);
  ds ←
    (if bool_decide (1 < length datasets)%nat then ConcatDataset datasets
     else match datasets with
          | d :: _ => Ok d
          | [] => Raise IndexError
          end);
  loader ← DataLoader ds true (ta_batch_size args) 24;
  let loader := set_shuffle loader true in
  mret loader.

(** [train_shallow2deep]: [w] is what the file system answers while the
    forests are prepared, [w'] what it answers to the loaders afterwards. *)
Definition train_shallow2deep (w w' : world) (args : train_args) : io event unit :=
  datasets ← lift (normalize_datasets (ta_datasets args));
  let name := "s2d-em-mitos-" +:+ String.concat "_" datasets +:+ "-3d-"
              +:+ ta_sampling_strategy args in
  _ ← require_rfs w (script_args_of args) datasets (ta_n_rfs args)
        (ta_sampling_strategy args);
  model ← lift (UNet3d 1 2 "Sigmoid" 4 32);
  train_loader ← lift (get_loader w' args "train" datasets);
  val_loader ← lift (get_loader w' args "val" datasets);
  let loss := DiceLoss in
  let loss :=
    if bool_decide ("kasthuri" ∈ datasets) then LossWrapper loss MaskIgnoreLabel
    else loss in
  trainer ← lift (default_segmentation_trainer name model train_loader val_loader
                    0x1.a36e2eb1c432dp-14%float loss (ta_device args) 50);
  lift (fit trainer (ta_n_iterations args)).
End Training.

(** A library that records what it was called with. *)
Definition rec_get_loader :=
  get_loader (list dataset_kwargs) (list dataset_kwargs * bool * Z * Z)
    (fun kw => Ok [kw]) (fun ds => Ok (concat ds))
    (fun ds shuffle batch_size num_workers => Ok (ds, shuffle, batch_size, num_workers))
    (fun loader shuffle =>
       let '(ds, _, batch_size, num_workers) := loader in
       (ds, shuffle, batch_size, num_workers)).

Definition rec_train_shallow2deep :=
  train_shallow2deep (list dataset_kwargs) (list dataset_kwargs * bool * Z * Z)
    unit (string * loss_fn)
    (fun kw => Ok [kw]) (fun ds => Ok (concat ds))
    (fun ds shuffle batch_size num_workers => Ok (ds, shuffle, batch_size, num_workers))
    (fun loader shuffle =>
       let '(ds, _, batch_size, num_workers) := loader in
       (ds, shuffle, batch_size, num_workers))
    (fun _ _ _ _ _ => Ok ())
    (fun name _ _ _ _ loss _ _ => Ok (name, loss))
    (fun _ _ => Ok ()).

(** A data root with three UroCell volumes, one of them without mitochondria
    labels, and two forests per folder. *)
Definition urocell_world : world := {|
  glob := fun pattern =>
    if bool_decide (pattern = "/scratch/pape/s2d-mitochondria/urocell/*.h5") then
      ["/scratch/pape/s2d-mitochondria/urocell/fib1-3-3-0.h5";
       "/scratch/pape/s2d-mitochondria/urocell/fib1-0-0-0.h5";
       "/scratch/pape/s2d-mitochondria/urocell/fib1-4-3-0.h5";
       "/scratch/pape/s2d-mitochondria/urocell/fib1-1-0-3.h5"]
    else if String.prefix "/scratch/pape/s2d-mitochondria/rfs3d-" pattern then
      ["rf_0001.pkl"; "rf_0000.pkl"]
    else [];
  path_exists := fun _ => true;
  file_has_key := fun pp _ =>
    negb (bool_decide (pp = "/scratch/pape/s2d-mitochondria/urocell/fib1-1-0-3.h5"));
  _require_lucchi_data := fun _ _ => Ok ();
  _require_urocell_data := fun _ _ => Ok ();
  prepare_shallow2deep := fun _ => Ok ();
  prepare_shallow2deep_advanced := fun _ _ => Ok ();
|}.

Definition urocell_args : train_args := {|
  ta_datasets := ["urocell"];
  ta_n_rfs := 2;
  ta_n_threads := 32;
  ta_sampling_strategy := "worst_tiles";
  ta_batch_size := 1;
  ta_device := VNone;
  ta_n_iterations := 10000;
|}.

(** The events that prepare forests do so in a folder other than [folder]. *)
Definition prepares_elsewhere (folder : string) (e : event) : Prop :=
  match e with
  | PrepareShallow2deep kw | PrepareShallow2deepAdvanced kw _ =>
      output_folder kw <> folder
  | _ => True
  end.

End TrainMito3d.

(** ** torch_em/self_training/logger.py *)
Module Logger.

#[global] Instance Z_divide_dec : RelDecision Z.divide.
Proof.
  intros a b. destruct (decide (a = 0)) as [-> | Ha].
  - destruct (decide (b = 0)) as [-> | Hb].
    + left. apply Z.divide_0_r.
    + right. intros H. apply Hb, Z.divide_0_l, H.
  - destruct (decide (b `mod` a = 0)) as [H | H].
    + left. apply Z.mod_divide; assumption.
    + right. intros Hd. apply H. apply Z.mod_divide; assumption.
Defined.

(** [a % b] on [int]: the sign follows the divisor, as [Z.modulo] has it. *)
Definition py_mod (a b : Z) : res Z :=
  if bool_decide (b = 0) then Raise ZeroDivisionError else Ok (a `mod` b).

(** What the logger reads of its trainer. *)
Record trainer := {
  trainer_name : string;
  trainer_log_image_interval : Z;
}.

Section Tensorboard.
  (** Loss and metric values, batches (at least one sample each, as a data
      loader yields them) and images, with the library functions on them:
      [x[0]], [torch_em.transform.raw.normalize] and torchvision's
      [make_grid]. *)
  Variables scalar tensor image : Type.
  Variable item0 : tensor -> image.
  Variable normalize : image -> image.
  Variable make_grid : list image -> option Z -> Z -> image.

(** The calls on the [SummaryWriter], in order. *)
Inductive tb_call :=
| add_scalar (tag : string) (scalar_value : scalar) (global_step : Z)
| add_image (tag : string) (img_tensor : image) (global_step : Z).

Record SelfTrainingTensorboardLogger := {
  my_root : option string;
  log_dir : string;
  log_image_interval : Z;
}.

(** [__init__]: the directory is made and the writer opened on it. *)
Definition init (tr : trainer) (save_root : option string)
  : SelfTrainingTensorboardLogger :=
  {| my_root := save_root;
     log_dir := match save_root with
                | None => "./logs/" +:+ trainer_name tr
                | Some root => os_path_join root ["logs"; trainer_name tr]
                end;
     log_image_interval := trainer_log_image_interval tr |}.

Definition _add_supervised_images (self : SelfTrainingTensorboardLogger)
    (step : Z) (name : string) (x y pred : tensor) : io tb_call unit :=
  let grid := make_grid [normalize (item0 x); item0 y; item0 pred] None 8 in
  emit (add_image (name +:+ "/supervised/input-labels-prediction") grid step).

Definition _add_unsupervised_images (self : SelfTrainingTensorboardLogger)
    (step : Z) (name : string) (x1 x2 pred pseudo_labels : tensor)
    (label_filter : option tensor) : io tb_call unit :=
  let images := [normalize (item0 x1); normalize (item0 x2);
                 item0 pred; item0 pseudo_labels] in
  let im_name := name +:+ "/unsupervised/aug1-aug2-prediction-pseudolabels" in
  let images := match label_filter with
                | Some lf => images ++ [item0 lf]
                | None => images
                end in
  let grid := make_grid images (Some 2) 8 in
  emit (add_image im_name grid step).

Definition log_combined_loss (self : SelfTrainingTensorboardLogger)
    (step : Z) (loss : scalar) : io tb_call unit :=
  emit (add_scalar "train/combined_loss" loss step).

Definition log_lr (self : SelfTrainingTensorboardLogger)
    (step : Z) (lr : scalar) : io tb_call unit :=
  emit (add_scalar "train/learning_rate" lr step).

Definition log_train_supervised (self : SelfTrainingTensorboardLogger)
    (step : Z) (loss : scalar) (x y pred : tensor) : io tb_call unit :=
  _ ← emit (add_scalar "train/supervised/loss" loss step);
  r ← lift (py_mod step (log_image_interval self));
  if bool_decide (r = 0) then
    _add_supervised_images self step "validation" x y pred
  else mret ().

Definition log_validation_supervised (self : SelfTrainingTensorboardLogger)
    (step : Z) (metric loss : scalar) (x y pred : tensor) : io tb_call unit :=
  _ ← emit (add_scalar "validation/supervised/loss" loss step);
  _ ← emit (add_scalar "validation/supervised/metric" metric step);
  _add_supervised_images self step "validation" x y pred.

Definition log_train_unsupervised (self : SelfTrainingTensorboardLogger)
    (step : Z) (loss : scalar) (x1 x2 pred pseudo_labels : tensor)
    (label_filter : option tensor) : io tb_call unit :=
  _ ← emit (add_scalar "train/unsupervised/loss" loss step);
  r ← lift (py_mod step (log_image_interval self));
  if bool_decide (r = 0) then
    _add_unsupervised_images self step "validation" x1 x2 pred pseudo_labels label_filter
  else mret ().

Definition log_validation_unsupervised (self : SelfTrainingTensorboardLogger)
    (step : Z) (metric loss : scalar) (x1 x2 pred pseudo_labels : tensor)
    (label_filter : option tensor) : io tb_call unit :=
  _ ← emit (add_scalar "validation/unsupervised/loss" loss step);
  _ ← emit (add_scalar "validation/unsupervised/metric" metric step);
  _add_unsupervised_images self step "validation" x1 x2 pred pseudo_labels label_filter.

Definition log_validation (self : SelfTrainingTensorboardLogger)
    (step : Z) (metric loss : scalar) (gt_metric : option scalar) : io tb_call unit :=
  _ ← emit (add_scalar "validation/loss" loss step);
  _ ← emit (add_scalar "validation/metric" metric step);
  match gt_metric with
  | Some m => emit (add_scalar "validation/gt_metric" m step)
  | None => mret ()
  end.

(** The grids of the two image calls. *)
Definition supervised_grid (x y pred : tensor) : image :=
  make_grid [normalize (item0 x); item0 y; item0 pred] None 8.

Definition unsupervised_grid (x1 x2 pred pseudo_labels : tensor)
    (label_filter : option tensor) : image :=
  make_grid ([normalize (item0 x1); normalize (item0 x2);
              item0 pred; item0 pseudo_labels]
             ++ match label_filter with Some lf => [item0 lf] | None => [] end)
            (Some 2) 8.
End Tensorboard.

Arguments add_scalar {scalar image} tag scalar_value global_step.
Arguments add_image {scalar image} tag img_tensor global_step.

End Logger.

(** ** torch_em/model/unetr.py *)
Module Unetr.

(** The shape of a batch of images, [(N, C, H, W)]. *)
Record shape := {
  batch : Z;
  channels : Z;
  height : Z;
  width : Z;
}.

(** The library operations [preprocess] and [postprocess_masks] apply to a
    tensor, with their arguments. *)
Inductive op :=
(** [transform.apply_image_torch(x)] *)
| apply_image_torch
(** [(x - pixel_mean) / pixel_std], the statistics viewed as [(1, 3, 1, 1)] *)
| normalize (pixel_mean pixel_std : list float)
(** [F.pad(x, (left, right, top, bottom))] *)
| pad (left right top bottom : Z)
(** [F.interpolate(x, size, mode=, align_corners=)] *)
| interpolate (size : Z * Z) (mode : string) (align_corners : bool)
(** [x[..., :h, :w]] *)
| crop (h w : Z).

(** A tensor is known by its shape and by the operations that produced it,
    oldest first, each with the shape of the tensor it was applied to; the
    floating-point contents are not modelled. *)
Record tensor := {
  shape_of : shape;
  history : list (shape * op);
}.

(** [x] after [o], with the shape [s]. *)
Definition apply_op (x : tensor) (o : op) (s : shape) : tensor :=
  {| shape_of := s; history := history x ++ [(shape_of x, o)] |}.

(** What [preprocess], [postprocess_masks] and [forward] read of [self]:
    [self.encoder.img_size], the two statistics flags, [self.transform]
    (the shape [ResizeLongestSide.apply_image_torch] resizes to, or [None])
    and, as one function on tensors, the modules between the two (encoder,
    deconvolution blocks, decoder, output convolution, final activation). *)
Record UNETR := {
  img_size : Z;
  use_sam_stats : bool;
  use_mae_stats : bool;
  transform : option (shape -> shape);
  network : tensor -> res tensor;
}.

(** Broadcasting of one dimension against another. *)
Definition broadcast_dim (a b : Z) : res Z :=
  if bool_decide (a = b) then Ok a
  else if bool_decide (a = 1) then Ok b
  else if bool_decide (b = 1) then Ok a
  else Raise (RuntimeError [Lit "The size of tensor a must match the size of tensor b"]).

(** [(x - pixel_mean) / pixel_std] with statistics of shape [(1, 3, 1, 1)]. *)
Definition normalize_with_stats (x : tensor) (pixel_mean pixel_std : list float)
  : res tensor :=
  c ← broadcast_dim (channels (shape_of x)) 3;
  Ok (apply_op x (normalize pixel_mean pixel_std)
        {| batch := batch (shape_of x); channels := c;
           height := height (shape_of x); width := width (shape_of x) |}).

(** [F.pad(x, (0, padw, 0, padh))]: the last dimension grows by [padw], the
    one before by [padh]; a negative amount crops, and no dimension may end
    up negative. *)
Definition F_pad (x : tensor) (padw padh : Z) : res tensor :=
  if bool_decide (height (shape_of x) + padh < 0)
     || bool_decide (width (shape_of x) + padw < 0) then
    Raise (RuntimeError [Lit "The input size, plus negative padding, resulted in a negative output size"])
  else
    Ok (apply_op x (pad 0 padw 0 padh)
          {| batch := batch (shape_of x); channels := channels (shape_of x);
             height := height (shape_of x) + padh;
             width := width (shape_of x) + padw |}).

(** [F.interpolate(masks, size, mode="bilinear", align_corners=False)] on a
    4d tensor: input and output sizes must be greater than 0. *)
Definition F_interpolate (x : tensor) (size : Z * Z) (mode : string)
    (align_corners : bool) : res tensor :=
  if bool_decide (0 < height (shape_of x)) && bool_decide (0 < width (shape_of x))
     && bool_decide (0 < size.1) && bool_decide (0 < size.2) then
    Ok (apply_op x (interpolate size mode align_corners)
          {| batch := batch (shape_of x); channels := channels (shape_of x);
             height := size.1; width := size.2 |})
  else
    Raise (RuntimeError [Lit "Input and output sizes should be greater than 0"]).

(** The length of [t[:stop]] along a dimension of length [len]. *)
Definition slice_to (len stop : Z) : Z :=
  if bool_decide (0 <= stop) then Z.min stop len else Z.max (len + stop) 0.

(** [masks[..., :h, :w]] *)
Definition slice_last_two (masks : tensor) (h w : Z) : tensor :=
  apply_op masks (crop h w)
    {| batch := batch (shape_of masks); channels := channels (shape_of masks);
       height := slice_to (height (shape_of masks)) h;
       width := slice_to (width (shape_of masks)) w |}.

Definition preprocess (self : UNETR) (x : tensor) : res (tensor * (Z * Z)) :=
  '(pixel_mean, pixel_std) ←
    (if use_sam_stats self then
       Ok ([0x1.eeb3333333333p+6; 0x1.d11eb851eb852p+6; 0x1.9e1eb851eb852p+6]%float,
           [0x1.d328f5c28f5c3p+5; 0x1.c8f5c28f5c28fp+5; 0x1.cbp+5]%float)
     else if use_mae_stats self then Raise NotImplementedError
     else Ok ([0; 0; 0]%float, [1; 1; 1]%float));
  let x := match transform self with
           | Some resized_shape => apply_op x apply_image_torch (resized_shape (shape_of x))
           | None => x
           end in
  let input_shape := (height (shape_of x), width (shape_of x)) in
  x ← normalize_with_stats x pixel_mean pixel_std;
  let '(h, w) := (height (shape_of x), width (shape_of x)) in
  let padh := img_size self - h in
  let padw := img_size self - w in
  x ← F_pad x padw padh;
  Ok (x, input_shape).

Definition postprocess_masks (self : UNETR) (masks : tensor)
    (input_size original_size : Z * Z) : res tensor :=
  masks ← F_interpolate masks (img_size self, img_size self) "bilinear" false;
  let masks := slice_last_two masks input_size.1 input_size.2 in
  masks ← F_interpolate masks original_size "bilinear" false;
  Ok masks.

Definition forward (self : UNETR) (x : tensor) : res tensor :=
  let original_shape := (height (shape_of x), width (shape_of x)) in
  '(x, input_shape) ← preprocess self x;
  x ← network self x;
  x ← postprocess_masks self x input_shape original_shape;
  Ok x.

(** The statistics [preprocess] normalizes with. *)
Definition sam_stats : list float * list float :=
  ([0x1.eeb3333333333p+6; 0x1.d11eb851eb852p+6; 0x1.9e1eb851eb852p+6]%float,
   [0x1.d328f5c28f5c3p+5; 0x1.c8f5c28f5c28fp+5; 0x1.cbp+5]%float).

Definition no_stats : list float * list float :=
  ([0; 0; 0]%float, [1; 1; 1]%float).

(** A model with the default [img_size] whose network answers with one
    channel at the resolution of its input and a history of its own, and a
    batch of three-channel images of 512 by 768 pixels as it comes in. *)
Definition example_model (sam mae : bool) : UNETR := {|
  img_size := 1024;
  use_sam_stats := sam;
  use_mae_stats := mae;
  transform := None;
  network := fun x =>
    Ok {| shape_of := {| batch := batch (shape_of x); channels := 1;
                         height := height (shape_of x);
                         width := width (shape_of x) |};
          history := [] |};
|}.

Definition example_input : tensor :=
  {| shape_of := {| batch := 2; channels := 3; height := 512; width := 768 |};
     history := [] |}.

End Unetr.

(** ** torch_em/data/datasets/medical/m2caiseg.py *)
Module M2caiseg.

Definition LABEL_MAPS : list ((Z * Z * Z) * Z) :=
  [((0, 0, 0), 0); ((0, 85, 170), 1); ((85, 170, 0), 2); ((85, 170, 255), 3);
   ((85, 255, 0), 4); ((85, 255, 170), 5); ((255, 0, 255), 6);
   ((170, 0, 255), 7); ((170, 0, 85), 8)].

(** Keyword arguments passed through to the dataset. *)
Abbreviation kwargs := (gmap string pyval).

(** The call that builds the dataset. *)
Record dataset_call := {
  ds_raw_paths : list string;
  ds_raw_key : pyval;
  ds_label_paths : list string;
  ds_label_key : pyval;
  ds_patch_shape : list Z;
  ds_is_seg_dataset : bool;
  ds_kwargs : kwargs;
}.

Inductive event :=
| Makedirs (path : string)
| DownloadSourceKaggle (path dataset_name : string) (download : bool)
| Unzip (zip_path dst : string)
| Print (msg : list frag)
| Imwrite (path : string)
| Breakpoint
| DefaultSegmentationDataset (c : dataset_call).

(** The world outside: the file system as the call finds it and the
    answers of the library calls.  [imread_shape] is the [shape] of the
    array [imageio.imread] returns for a file, when it returns one;
    [imwrite] is what [imageio.imwrite] answers for a target. *)
Record world := {
  path_exists : string -> bool;
  glob : string -> list string;
  imread_shape : string -> res (list Z);
  imwrite : string -> res unit;
  download_source_kaggle : string -> string -> bool -> res unit;
  unzip : string -> string -> res unit;
  update_kwargs_for_resize_trafo :
    kwargs -> list Z -> bool -> res (kwargs * list Z);
  default_segmentation_dataset : dataset_call -> res unit;
}.

Definition get_m2caiseg_data (w : world) (path : string) (download : bool)
  : io event string :=
  _ ← emit (Makedirs path);
  let data_dir := os_path_join path ["m2caiSeg dataset"] in
  if path_exists w data_dir then mret data_dir
  else
    _ ← emit (DownloadSourceKaggle path "salmanmaq/m2caiseg" download);
    _ ← lift (download_source_kaggle w path "salmanmaq/m2caiseg" download);
    let zip_path := os_path_join path ["m2caiseg.zip"] in
    _ ← emit (Unzip zip_path path);
    _ ← lift (unzip w zip_path path);
    mret data_dir.

(** The relabelling of a ground truth of shape [gt] (numpy 1.25 and later):
    [np.zeros(gt.shape[:2])], then for every colour [lmap] of [LABEL_MAPS]
    the comparison [gt == lmap] against three values, [.all(axis=2)] and the
    masked assignment into [instances].  The comparison broadcasts only
    when the last axis has length 3 or 1, [axis=2] exists only from three
    axes on, and the mask indexes the 2d [instances] only when it is 2d
    itself: the relabelling goes through on shapes [(H, W, 3)] and
    [(H, W, 1)] and raises on every other shape, in the first round. *)
Definition relabel (gt : list Z) : res unit :=
  match reverse gt with
  | [] => Raise (ValueError [Lit "axis 2 is out of bounds for array of dimension 1"])
  | c :: outer =>
      if bool_decide (c = 3) || bool_decide (c = 1) then
        match outer with
        | [_; _] => Ok ()
        | [] | [_] =>
            Raise (ValueError [Lit "axis 2 is out of bounds for array of dimension ";
                               FInt (Z.of_nat (length gt))])
        | _ => Raise IndexError
        end
      else
        Raise (ValueError [Lit "operands could not be broadcast together with shapes ";
                           FInts gt; Lit " "; FInts [3]])
  end.

Section Paths.
  (** [natsort.natsorted] *)
  Variable natsorted : list string -> list string.

(** The body of the loop over [zip(image_paths, gt_paths)].  [written]
    holds the files written so far, which [os.path.exists] sees too. *)
Fixpoint _get_m2caiseg_paths_loop (w : world) (images_dir mask_dir : string)
    (pairs : list (string * string)) (written : list string)
    (fimage_paths fgt_paths : list string)
  : io event (list string * list string) :=
  match pairs with
  | [] => mret (fimage_paths, fgt_paths)
  | (image_path, gt_path) :: rest =>
      image ← lift (imread_shape w image_path);
      gt ← lift (imread_shape w gt_path);
      let image_id := stem image_path in
      let gt_id := stem gt_path in
      if bool_decide (image <> gt) then
        _ ← emit (Print [Lit "This pair of image and labels mismatch."]);
        _get_m2caiseg_paths_loop w images_dir mask_dir rest written
          fimage_paths fgt_paths
      else
        let dst_image_path := os_path_join images_dir [image_id +:+ ".tif"] in
        let dst_gt_path := os_path_join mask_dir [gt_id +:+ ".tif"] in
        let fimage_paths := fimage_paths ++ [image_path] in
        let fgt_paths := fgt_paths ++ [dst_gt_path] in
        let os_path_exists p := path_exists w p || bool_decide (p ∈ written) in
        if os_path_exists dst_gt_path && os_path_exists dst_image_path then
          _get_m2caiseg_paths_loop w images_dir mask_dir rest written
            fimage_paths fgt_paths
        else
          _ ← lift (relabel gt);
          _ ← emit (Imwrite dst_image_path);
          _ ← lift (imwrite w dst_image_path);
          _ ← emit (Imwrite dst_gt_path);
          _ ← lift (imwrite w dst_gt_path);
          _get_m2caiseg_paths_loop w images_dir mask_dir rest
            (dst_gt_path :: dst_image_path :: written) fimage_paths fgt_paths
  end.

Definition _get_m2caiseg_paths (w : world) (path split : string) (download : bool)
  : io event (list string * list string) :=
  data_dir ← get_m2caiseg_data w path download;
  let '(image_paths, gt_paths) :=
    if bool_decide (split = "val") then
      let impaths := natsorted (glob w (os_path_join data_dir ["train"; "images"; "*.jpg"])) in
      let gpaths := natsorted (glob w (os_path_join data_dir ["train"; "groundtruth"; "*.png"])) in
      let imids := basename <$> impaths in
      let gids := basename <$> gpaths in
      let image_paths :=
        filter (fun _p => basename _p ∉ imids)
          (natsorted (glob w (os_path_join data_dir ["trainval"; "images"; "*.jpg"]))) in
      let gt_paths :=
        filter (fun _p => basename _p ∉ gids)
          (natsorted (glob w (os_path_join data_dir ["trainval"; "groundtruth"; "*.png"]))) in
      (image_paths, gt_paths)
    else
      let image_paths := natsorted (glob w (os_path_join data_dir [split; "images"; "*.jpg"])) in
      let gt_paths := natsorted (glob w (os_path_join data_dir [split; "groundtruth"; "*.png"])) in
      (image_paths, gt_paths) in
  let images_dir := os_path_join data_dir ["preprocessed"; "images"] in
  let mask_dir := os_path_join data_dir ["preprocessed_masks"] in
  _ ← emit (Makedirs images_dir);
  _ ← emit (Makedirs mask_dir);
  _get_m2caiseg_paths_loop w images_dir mask_dir (zip image_paths gt_paths) [] [] [].

Definition get_m2caiseg_dataset (w : world) (path split : string)
    (patch_shape : list Z) (resize_inputs download : bool) (kw : kwargs)
  : io event dataset_call :=
  if bool_decide (split ∈ ["train"; "val"; "test"]) then
    '(image_paths, gt_paths) ← _get_m2caiseg_paths w path split download;
    _ ← emit (Print [FInt (Z.of_nat (length image_paths));
                     FInt (Z.of_nat (length gt_paths))]);
    _ ← emit Breakpoint;
    '(kw, patch_shape) ←
      (if resize_inputs then
         lift (update_kwargs_for_resize_trafo w kw patch_shape resize_inputs)
       else mret (kw, patch_shape));
    let call := {| ds_raw_paths := image_paths; ds_raw_key := VNone;
                   ds_label_paths := gt_paths; ds_label_key := VNone;
                   ds_patch_shape := patch_shape; ds_is_seg_dataset := false;
                   ds_kwargs := kw |} in
    _ ← emit (DefaultSegmentationDataset call);
    _ ← lift (default_segmentation_dataset w call);
    mret call
  else raise (AssertionError []).
End Paths.

(** A pair of an image and a ground truth the loop keeps: both are read
    and the arrays have the same shape. *)
Definition same_shape (w : world) (p : string * string) : Prop :=
  match imread_shape w p.1, imread_shape w p.2 with
  | Ok image, Ok gt => image = gt
  | _, _ => False
  end.

#[global] Instance same_shape_dec w p : Decision (same_shape w p).
Proof.
  unfold same_shape.
  destruct (imread_shape w p.1); [destruct (imread_shape w p.2) |]; apply _.
Defined.

(** Where the copy of [image_path] is written. *)
Definition image_copy_path (data_dir image_path : string) : string :=
  os_path_join (os_path_join data_dir ["preprocessed"; "images"])
    [stem image_path +:+ ".tif"].

(** Where the relabelled ground truth of [gt_path] is written. *)
Definition mask_path (data_dir gt_path : string) : string :=
  os_path_join (os_path_join data_dir ["preprocessed_masks"]) [stem gt_path +:+ ".tif"].

Definition is_construct (e : event) : bool :=
  match e with DefaultSegmentationDataset _ => true | _ => false end.

(** A data folder that is already unpacked.  The training folder holds
    [a.jpg] with its ground truth; the trainval folder holds [a.jpg],
    [b.jpg] and [c.jpg] with theirs, [c.png] being of another size than
    [c.jpg]; the test folder holds [d.jpg] and [d.png], both grey.  Nothing
    can be downloaded unless asked for. *)
Definition example_world : world := {|
  path_exists := fun p => bool_decide (p = "data/m2caiSeg dataset");
  glob := fun pat =>
    if bool_decide (pat = "data/m2caiSeg dataset/train/images/*.jpg") then
      ["data/m2caiSeg dataset/train/images/a.jpg"]
    else if bool_decide (pat = "data/m2caiSeg dataset/train/groundtruth/*.png") then
      ["data/m2caiSeg dataset/train/groundtruth/a.png"]
    else if bool_decide (pat = "data/m2caiSeg dataset/trainval/images/*.jpg") then
      ["data/m2caiSeg dataset/trainval/images/a.jpg";
       "data/m2caiSeg dataset/trainval/images/b.jpg";
       "data/m2caiSeg dataset/trainval/images/c.jpg"]
    else if bool_decide (pat = "data/m2caiSeg dataset/trainval/groundtruth/*.png") then
      ["data/m2caiSeg dataset/trainval/groundtruth/a.png";
       "data/m2caiSeg dataset/trainval/groundtruth/b.png";
       "data/m2caiSeg dataset/trainval/groundtruth/c.png"]
    else if bool_decide (pat = "data/m2caiSeg dataset/test/images/*.jpg") then
      ["data/m2caiSeg dataset/test/images/d.jpg"]
    else if bool_decide (pat = "data/m2caiSeg dataset/test/groundtruth/*.png") then
      ["data/m2caiSeg dataset/test/groundtruth/d.png"]
    else [];
  imread_shape := fun p =>
    if bool_decide (p = "data/m2caiSeg dataset/trainval/groundtruth/c.png")
    then Ok [240; 320; 3]
    else if String.prefix "data/m2caiSeg dataset/test/" p then Ok [480; 640]
    else Ok [480; 640; 3];
  imwrite := fun _ => Ok ();
  download_source_kaggle := fun path _ download =>
    if download then Ok ()
    else Raise (RuntimeError [Lit "Cannot find the data at "; FStr path;
                              Lit ", but download was set to False."]);
  unzip := fun _ _ => Ok ();
  update_kwargs_for_resize_trafo := fun kw ps _ => Ok (kw, ps);
  default_segmentation_dataset := fun _ => Ok ();
|}.

End M2caiseg.

(** ** torch_em/data/datasets/medical/palm.py *)
Module Palm.

Definition URL : string := "https://springernature.figshare.com/ndownloader/files/37786152".
Definition CHECKSUM : string :=
  "21cd568a00a50287370572ea81b50847085819bd2f732331ee9cdc6367e6cd1f".

(** An image file is the sequence of its pixel values. *)
Abbreviation image := (list Z).

Inductive event :=
| Makedirs (path : string)
| DownloadSource (path url : string) (download : bool) (checksum : string)
| Unzip (zip_path dst : string)
| Rmtree (path : string)
| Imwrite (path : string) (data : image).

(** The world outside, files apart: which folders exist, what [glob]
    lists and what the library calls answer.  [rmtree] raises
    [FileNotFoundError] for a folder that is not there, [imwrite] for a
    target in a folder that is not there. *)
Record world := {
  path_exists : string -> bool;
  glob : string -> list string;
  download_source : string -> string -> bool -> string -> res unit;
  unzip : string -> string -> res unit;
  rmtree : string -> res unit;
  imwrite : string -> image -> res unit;
}.

Definition get_palm_data (w : world) (path : string) (download : bool)
  : io event string :=
  let data_dir := os_path_join path ["PALM"] in
  if path_exists w data_dir then mret data_dir
  else
    _ ← emit (Makedirs path);
    let zip_path := os_path_join path ["data.zip"] in
    _ ← emit (DownloadSource zip_path URL download CHECKSUM);
    _ ← lift (download_source w zip_path URL download CHECKSUM);
    _ ← emit (Unzip zip_path path);
    _ ← lift (unzip w zip_path path);
    _ ← emit (Rmtree (os_path_join path ["__MACOSX"]));
    _ ← lift (rmtree w (os_path_join path ["__MACOSX"]));
    mret data_dir.

(** [imageio.imread] on the files as they are. *)
Definition imread (files : gmap string image) (path : string) : res image :=
  match files !! path with
  | Some data => Ok data
  | None => Raise (FileNotFoundError path)
  end.

(** [(label == 0).astype(int)] *)
Definition eq_zero_as_int (label : image) : image :=
  (fun v => if bool_decide (v = 0) then 1 else 0) <$> label.

(** The loop of [_preprocess_labels] over [zip(label_paths, neu_label_paths)];
    the files are threaded through, each call of [imwrite] is also an
    event, and the file is there once the call has returned. *)
Fixpoint _preprocess_labels_loop (w : world) (files : gmap string image)
    (pairs : list (string * string)) : io event (gmap string image) :=
  match pairs with
  | [] => mret files
  | (lpath, neu_lpath) :: rest =>
      if bool_decide (is_Some (files !! neu_lpath)) then
        _preprocess_labels_loop w files rest
      else
        label ← lift (imread files lpath);
        let data := eq_zero_as_int label in
        _ ← emit (Imwrite neu_lpath data);
        _ ← lift (imwrite w neu_lpath data);
        _preprocess_labels_loop w (<[neu_lpath := data]> files) rest
  end.

Definition _preprocess_labels (w : world) (files : gmap string image)
    (label_paths : list string) : io event (gmap string image * list string) :=
  let neu_label_paths := str_replace ".bmp" "_preprocessed.tif" <$> label_paths in
  files ← _preprocess_labels_loop w files (zip label_paths neu_label_paths);
  mret (files, neu_label_paths).

(** The branch of [get_palm_paths] on [label_choice]. *)
Definition get_palm_paths_ldir (label_choice : string) : res string :=
  if bool_decide (label_choice = "disc") then Ok "Disc Masks"
  else if bool_decide (label_choice = "atrophy_lesion") then Ok "Lesion Masks/Atrophy"
  else if bool_decide (label_choice = "detachment_lesion") then Ok "Lesion Masks/Detachment"
  else Raise (ValueError [Lit "'"; FStr label_choice;
                          Lit "' is not a valid choice of labels."]).

Section Paths.
  (** [natsort.natsorted] *)
  Variable natsorted : list string -> list string.

(** [files] are the files once the data is in place; the result holds the
    files afterwards and the pair [(raw_paths, label_paths)]. *)
Definition get_palm_paths (w : world) (files : gmap string image)
    (path split label_choice : string) (download : bool)
  : io event (gmap string image * (list string * list string)) :=
  data_dir ← get_palm_data w path download;
  if bool_decide (split ∈ ["Training"; "Validation"; "Testing"]) then
    ldir ← lift (get_palm_paths_ldir label_choice);
    let label_paths := natsorted (glob w (os_path_join data_dir [split; ldir; "*.bmp"])) in
    '(files, label_paths) ← _preprocess_labels w files label_paths;
    let raw_paths := str_replace ldir "Images" <$> label_paths in
    let raw_paths := str_replace "_preprocessed.tif" ".jpg" <$> raw_paths in
    if bool_decide (length label_paths = length raw_paths) then
      mret (files, (raw_paths, label_paths))
    else raise (AssertionError [])
  else
    raise (AssertionError [Lit "'"; FStr split; Lit "' is not a valid split."]).
End Paths.

(** The targets [imwrite] was called with, in order. *)
Definition writes (tr : list event) : list string :=
  omap (fun e => match e with Imwrite p _ => Some p | _ => None end) tr.

(** An unpacked data folder with two disc masks in the training split; the
    second has been preprocessed before. *)
Definition example_world : world := {|
  path_exists := fun p => bool_decide (p = "data/PALM");
  glob := fun pat =>
    if bool_decide (pat = "data/PALM/Training/Disc Masks/*.bmp") then
      ["data/PALM/Training/Disc Masks/H0001.bmp";
       "data/PALM/Training/Disc Masks/H0002.bmp"]
    else [];
  download_source := fun _ _ _ _ => Raise (LibraryError "download");
  unzip := fun _ _ => Ok ();
  rmtree := fun p => Raise (FileNotFoundError p);
  imwrite := fun p _ =>
    if String.prefix "data/PALM/Training/Disc Masks/" p then Ok ()
    else Raise (FileNotFoundError p);
|}.

Definition example_files : gmap string image :=
  list_to_map [
    ("data/PALM/Training/Disc Masks/H0001.bmp", [255; 0; 0; 255]);
    ("data/PALM/Training/Disc Masks/H0002.bmp", [0; 0; 255; 255]);
    ("data/PALM/Training/Disc Masks/H0002_preprocessed.tif", [7; 7; 7; 7])
  ].

(** The same data unpacked under a folder named [scans.bmp]: the only
    folders are those of the data, so that a target can be written only
    under [scans.bmp/PALM/Training/Disc Masks/]. *)
Definition bmp_folder_world : world := {|
  path_exists := fun p => bool_decide (p = "scans.bmp/PALM");
  glob := fun pat =>
    if bool_decide (pat = "scans.bmp/PALM/Training/Disc Masks/*.bmp") then
      ["scans.bmp/PALM/Training/Disc Masks/H0001.bmp"]
    else [];
  download_source := fun _ _ _ _ => Raise (LibraryError "download");
  unzip := fun _ _ => Ok ();
  rmtree := fun p => Raise (FileNotFoundError p);
  imwrite := fun p _ =>
    if String.prefix "scans.bmp/PALM/Training/Disc Masks/" p then Ok ()
    else Raise (FileNotFoundError p);
|}.

Definition bmp_folder_files : gmap string image :=
  list_to_map [("scans.bmp/PALM/Training/Disc Masks/H0001.bmp", [255; 0; 0; 255])].

End Palm.

(** * Properties *)

(** ** Sorting and traces *)

Lemma str_le_total : Total str_le.
Proof. intros s t. unfold str_le. apply String.leb_total. Qed.

Lemma sorted_Sorted l : Sorted str_le (sorted l).
Proof. unfold sorted. apply Sorted_merge_sort, str_le_total. Qed.

Lemma sorted_Permutation l : sorted l ≡ₚ l.
Proof. unfold sorted. apply merge_sort_Permutation. Qed.

(** Traces and results of sequenced computations. *)
Lemma io_bind_emit {E A} (e : E) (f : unit -> io E A) :
  (emit e ≫= f) = (e :: (f ()).1, (f ()).2).
Proof. unfold mbind, io_bind, emit. destruct (f ()) as [t r]. reflexivity. Qed.

Lemma io_bind_result {E A B} (m : io E A) (f : A -> io E B) :
  (m ≫= f).2 = match m.2 with Ok a => (f a).2 | Raise e => Raise e end.
Proof.
  unfold mbind, io_bind. destruct m as [t [a | e]]; [| reflexivity].
  simpl. destruct (f a) as [t' r]. reflexivity.
Qed.

Lemma io_bind_trace {E A B} (P : E -> Prop) (m : io E A) (f : A -> io E B) :
  Forall P m.1 -> (forall a, Forall P (f a).1) -> Forall P (m ≫= f).1.
Proof.
  intros Hm Hf. unfold mbind, io_bind. destruct m as [t [a | e]]; [| exact Hm].
  specialize (Hf a). destruct (f a) as [t' r]. simpl in *.
  apply Forall_app. split; assumption.
Qed.

Lemma io_bind_lift_ok {E A B} (a : A) (f : A -> io E B) :
  (lift (Ok a) ≫= f) = f a.
Proof. unfold mbind, io_bind, lift. destruct (f a) as [t r]. reflexivity. Qed.

Lemma io_bind_lift_raise {E A B} (e : exn) (f : A -> io E B) :
  (lift (Raise e) ≫= f) = ([], Raise e).
Proof. reflexivity. Qed.

Lemma io_bind_ret {E A B} (a : A) (f : A -> io E B) :
  (mret a ≫= f) = f a.
Proof. unfold mbind, io_bind, mret, io_ret. destruct (f a) as [t r]. reflexivity. Qed.

Lemma io_bind_ok {E A B} (t : list E) (a : A) (f : A -> io E B) :
  ((t, Ok a) ≫= f) = (t ++ (f a).1, (f a).2).
Proof. unfold mbind, io_bind. destruct (f a) as [t' r]. reflexivity. Qed.

Lemma io_bind_assoc {E A B C} (m : io E A) (f : A -> io E B) (g : B -> io E C) :
  ((m ≫= f) ≫= g) = (m ≫= fun a => f a ≫= g).
Proof.
  unfold mbind, io_bind. destruct m as [t [a | e]]; [| reflexivity].
  destruct (f a) as [t' [b | e]]; [| reflexivity].
  destruct (g b) as [t'' r]. rewrite app_assoc. reflexivity.
Qed.

(** ** torch_em/cli.py *)
Module CliFacts.
Import Cli.

(** The attributes of a parsed training namespace. *)
Lemma parser_has_no_validation_key c :
  _get_training_parser c !! "validation_key" = None.
Proof. vm_compute. reflexivity. Qed.

Lemma parser_has_no_label_model c :
  _get_training_parser c !! "label_model" = None.
Proof. vm_compute. reflexivity. Qed.

Lemma parser_has_no_scale_factors c :
  _get_training_parser c !! "scale_factors" = None.
Proof. vm_compute. reflexivity. Qed.

Lemma getattr_label_mode c :
  getattr (_get_training_parser c) "label_mode" = Ok (opt_str (label_mode c)).
Proof. vm_compute. reflexivity. Qed.

Lemma getattr_patch_shape c :
  getattr (_get_training_parser c) "patch_shape" = Ok (VInts (patch_shape c)).
Proof. vm_compute. reflexivity. Qed.

(** Whatever the namespace, a mode that is a string outside the five handled
    ones ends in the [else] branch, whose message reads [args.label_model]. *)
Lemma label_transform_unhandled_mode args ndim m :
  getattr args "label_mode" = Ok (VStr m) ->
  m ∉ handled_modes ->
  _get_loader_label_transform args ndim =
    (v ← getattr args "label_model";
     Raise (ValueError [Lit "Unknown label mode "; frag_of v;
                        Lit ", expect one of "; FStrs label_modes])).
Proof.
  intros Hm Hnot. unfold _get_loader_label_transform. rewrite Hm. simpl.
  unfold handled_modes in Hnot.
  repeat (rewrite not_elem_of_cons in Hnot; destruct Hnot as [? Hnot]).
  rewrite !bool_decide_eq_false_2 by assumption.
  reflexivity.
Qed.

Section WithLibrary.
  Variables Dataset Loader : Type.
  Variable default_segmentation_dataset :
    forall (input_paths input_key label_paths label_key patch_shape : pyval) (ndim : Z)
           (label_transform label_transform2 : option label_trafo), res Dataset.
  Variable random_split : Dataset -> list float -> res (Dataset * Dataset).
  Variable get_data_loader :
    forall (ds : Dataset) (batch_size : pyval) (shuffle : bool) (num_workers : Z), res Loader.
  Variable cpu_count : Z.

  Abbreviation get_loader := (_get_loader Dataset Loader default_segmentation_dataset
                            random_split get_data_loader cpu_count).
  Abbreviation get_loader_build := (_get_loader_build Dataset Loader
                            default_segmentation_dataset
                            random_split get_data_loader cpu_count).
  Abbreviation get_loaders := (_get_loaders Dataset Loader default_segmentation_dataset
                            random_split get_data_loader cpu_count).

  (** On every namespace of either training command line an unhandled label
      mode makes [_get_loader] raise [AttributeError], never [ValueError]:
      neither parser defines [label_model]. *)
Lemma get_loader_unhandled_mode_attribute_error c m ndim ip ik lp lk split :
    label_mode c = Some m ->
    m ∉ handled_modes ->
    get_loader ip ik lp lk (train_2d_unet_args c) ndim split
      = Raise (AttributeError "label_model")
    /\ forall sf, get_loader ip ik lp lk (train_3d_unet_args c sf) ndim split
      = Raise (AttributeError "label_model").
  Proof.
    intros Hm Hnot. split; [| intros sf]; unfold _get_loader.
    - rewrite (label_transform_unhandled_mode _ _ m); [reflexivity | | exact Hnot].
      unfold train_2d_unet_args. rewrite getattr_label_mode, Hm. reflexivity.
    - rewrite (label_transform_unhandled_mode _ _ m); [reflexivity | | exact Hnot].
      unfold train_3d_unet_args, getattr. rewrite lookup_insert_ne by discriminate.
      fold (getattr (_get_training_parser c) "label_mode").
      rewrite getattr_label_mode, Hm. reflexivity.
  Qed.

(** C10.  Patch-shape validation of [_get_loader], once the label mode has
    been dealt with, on a namespace whose [patch_shape] holds at least one
    entry (the parser reads it with [nargs="+"]).  A shape is accepted when
    control reaches the construction of the dataset.  For [ndim = 2] the
    [ValueError] is raised exactly when the length is not 2 and the first
    entry is not 1, so a first entry 1 or a length of 2 is accepted; for
    [ndim = 3] exactly the shapes of length 3 are accepted; any other
    [ndim] raises [RuntimeError]. *)
Theorem get_loader_patch_shape_validation args ndim ps lt ip ik lp lk split :
  _get_loader_label_transform args ndim = Ok lt ->
  getattr args "patch_shape" = Ok (VInts ps) ->
  ps <> [] ->
  let run := get_loader ip ik lp lk args ndim split in
  let accepted := run = get_loader_build ip ik lp lk args ndim split lt (VInts ps) in
  (ndim = 2 ->
     (length ps <> 2%nat /\ head ps <> Some 1 ->
        run = Raise (ValueError [Lit "Invalid patch_shape "; FInts ps;
                                 Lit " for 2d data."]))
     /\ (length ps = 2%nat \/ head ps = Some 1 -> accepted))
  /\ (ndim = 3 ->
     (length ps = 3%nat -> accepted)
     /\ (length ps <> 3%nat ->
        run = Raise (ValueError [Lit "Invalid patch_shape "; FInts ps;
                                 Lit " for 3d data."])))
  /\ (ndim <> 2 -> ndim <> 3 ->
     run = Raise (RuntimeError [Lit "Invalid ndim: "; FInt ndim])).
Proof.
  intros Hlt Hps Hne run accepted. subst run accepted.
  unfold _get_loader. rewrite Hlt, Hps. simpl.
  unfold _get_loader_validate_patch_shape.
  destruct ps as [| z ps']; [congruence |]. clear Hne.
  split; [| split].
  - intros ->. simpl. split.
    + intros [Hlen Hhd].
      rewrite bool_decide_eq_true_2 by lia. simpl.
      rewrite bool_decide_eq_true_2 by congruence. reflexivity.
    + intros Hacc. case_bool_decide as Hlen; [| reflexivity]. simpl.
      destruct Hacc as [Hacc | Hacc]; [simpl in Hacc; lia |].
      injection Hacc as ->. reflexivity.
  - intros ->. simpl. split.
    + intros Hlen. rewrite bool_decide_eq_false_2; [reflexivity |].
      simpl in Hlen. lia.
    + intros Hlen. rewrite bool_decide_eq_true_2; [reflexivity |].
      simpl in Hlen. lia.
  - intros H2 H3. rewrite !bool_decide_eq_false_2 by assumption. reflexivity.
Qed.

(** C8, as the code has it.  On every namespace of either training command
    line that holds validation inputs, [_get_loaders] returns no loaders: when
    the loader of the training data cannot be built it raises that error,
    and as soon as it is built [_get_loaders] raises [AttributeError] for
    [validation_key], an attribute neither parser defines, so the loader of
    the validation data is never built. *)
Theorem get_loaders_with_validation_inputs c vi ndim args :
  validation_inputs c = Some vi ->
  args = train_2d_unet_args c \/ (exists sf, args = train_3d_unet_args c sf) ->
  match get_loader (VStrs (training_inputs c)) (opt_str (training_input_key c))
          (VStrs (training_labels c)) (opt_str (training_label_key c))
          args ndim false with
  | Ok _ => get_loaders args ndim = Raise (AttributeError "validation_key")
  | Raise e => get_loaders args ndim = Raise e
  end.
Proof.
  intros Hvi Hargs.
  assert (Hattr : getattr args "validation_inputs" = Ok (VStrs vi)
                  /\ getattr args "training_inputs" = Ok (VStrs (training_inputs c))
                  /\ getattr args "training_input_key" = Ok (opt_str (training_input_key c))
                  /\ getattr args "training_labels" = Ok (VStrs (training_labels c))
                  /\ getattr args "training_label_key" = Ok (opt_str (training_label_key c))
                  /\ getattr args "validation_key" = Raise (AttributeError "validation_key")).
  { destruct Hargs as [-> | [sf ->]];
      unfold train_2d_unet_args, train_3d_unet_args, getattr;
      rewrite ?lookup_insert_ne by discriminate;
      (replace (_get_training_parser c !! "validation_inputs")
         with (Some (opt_strs (validation_inputs c))) by (vm_compute; reflexivity));
      rewrite Hvi; repeat split; vm_compute; reflexivity. }
  destruct Hattr as (H1 & H2 & H3 & H4 & H5 & H6).
  unfold _get_loaders. rewrite H1. simpl. rewrite H2, H3, H4, H5. simpl.
  destruct (get_loader _ _ _ _ args ndim false) as [l | e]; simpl.
  - rewrite H6. reflexivity.
  - reflexivity.
Qed.
End WithLibrary.

(** C1 (the code departs from it).  The claim has [_get_loader] raise a
    [ValueError] naming the unknown mode for every label mode outside the
    listed ones, and pick an affinity transform for "affinities" on every
    parsed namespace.  Run on concrete command lines: with
    [--label_mode instances] both the 2d and the 3d command line raise
    [AttributeError] for [label_model], and with [--label_mode affinities]
    the 2d command line raises [AttributeError] for [scale_factors], which
    only the 3d parser defines. *)
Theorem get_loader_label_mode_attribute_errors :
  let ip := VStrs ["train.h5"] in
  let unknown := with_label_mode (Some "instances") cli_example in
  let affinities := with_label_mode (Some "affinities") cli_example in
  rec_get_loader ip (VStr "raw") ip (VStr "labels")
    (train_2d_unet_args unknown) 2 false = Raise (AttributeError "label_model")
  /\ rec_get_loader ip (VStr "raw") ip (VStr "labels")
    (train_3d_unet_args unknown None) 3 false = Raise (AttributeError "label_model")
  /\ rec_get_loader ip (VStr "raw") ip (VStr "labels")
    (train_2d_unet_args affinities) 2 false = Raise (AttributeError "scale_factors").
Proof. vm_compute. repeat split. Qed.

Lemma get_loader_patch_shape_validation_witness :
  let args := train_2d_unet_args cli_example in
  rec_get_loader (VStr "a") VNone (VStr "b") VNone args 2 false
  = _get_loader_build rec_dataset rec_loader rec_default_segmentation_dataset
      rec_random_split rec_get_data_loader 4
      (VStr "a") VNone (VStr "b") VNone args 2 false None (VInts [256; 256]).
Proof.
  intros args.
  refine (proj2 (proj1 (get_loader_patch_shape_validation
    rec_dataset rec_loader rec_default_segmentation_dataset
    rec_random_split rec_get_data_loader 4
    args 2 [256; 256] None (VStr "a") VNone (VStr "b") VNone false
    _ _ _) _) _).
  - vm_compute. reflexivity.
  - vm_compute. reflexivity.
  - discriminate.
  - reflexivity.
  - left. reflexivity.
Defined.

(** C8, as stated, fails: with validation inputs and a patch shape that the
    2d validation rejects, [_get_loaders] raises the [ValueError] of the
    training loader, not an [AttributeError]. *)
Lemma get_loaders_with_validation_inputs_value_error :
  let c := with_patch_shape [3; 4; 5] (with_validation ["val.h5"] ["val.h5"] cli_example) in
  validation_inputs c = Some ["val.h5"]
  /\ rec_get_loaders (train_2d_unet_args c) 2
     = Raise (ValueError [Lit "Invalid patch_shape "; FInts [3; 4; 5];
                          Lit " for 2d data."]).
Proof. vm_compute. split; reflexivity. Qed.

Lemma get_loaders_with_validation_inputs_witness :
  let c := with_validation ["val.h5"] ["val.h5"] cli_example in
  rec_get_loaders (train_2d_unet_args c) 2 = Raise (AttributeError "validation_key").
Proof.
  intros c.
  exact (get_loaders_with_validation_inputs
    rec_dataset rec_loader rec_default_segmentation_dataset
    rec_random_split rec_get_data_loader 4
    c ["val.h5"] 2 (train_2d_unet_args c) eq_refl (or_introl eq_refl)).
Defined.

(** Where the label mode is one of those handled and the namespace is that
    of the 3d command line, which defines [scale_factors], the first block
    of [_get_loader] picks: nothing for [None], an affinity transform with
    mask for the two affinity modes (with the binary target only for
    "affinities_and_foreground"), a boundary transform for the two
    boundary modes, and [labels_to_binary] for "foreground". *)
Theorem label_transform_of_handled_mode c sf ndim :
  let args := train_3d_unet_args c sf in
  let offsets := _get_offsets ndim (opt_str sf) in
  (label_mode c = None -> _get_loader_label_transform args ndim = Ok None)
  /\ (label_mode c = Some "affinities" ->
      _get_loader_label_transform args ndim
      = Ok (Some (AffinityTransform offsets false true)))
  /\ (label_mode c = Some "affinities_and_foreground" ->
      _get_loader_label_transform args ndim
      = Ok (Some (AffinityTransform offsets true true)))
  /\ (label_mode c = Some "boundaries" ->
      _get_loader_label_transform args ndim = Ok (Some (BoundaryTransform false)))
  /\ (label_mode c = Some "boundaries_and_foreground" ->
      _get_loader_label_transform args ndim = Ok (Some (BoundaryTransform true)))
  /\ (label_mode c = Some "foreground" ->
      _get_loader_label_transform args ndim = Ok (Some labels_to_binary)).
Proof.
  intros args offsets.
  assert (Hmode : getattr args "label_mode" = Ok (opt_str (label_mode c))).
  { subst args. unfold train_3d_unet_args, getattr.
    rewrite lookup_insert_ne by discriminate. apply getattr_label_mode. }
  assert (Hsf : getattr args "scale_factors" = Ok (opt_str sf)).
  { subst args. unfold train_3d_unet_args, getattr.
    rewrite lookup_insert_eq. reflexivity. }
  unfold _get_loader_label_transform. rewrite Hmode.
  repeat split; intros ->; simpl; rewrite ?Hsf; reflexivity.
Qed.

Lemma label_transform_of_handled_mode_witness :
  _get_loader_label_transform
    (train_3d_unet_args (with_label_mode (Some "affinities_and_foreground") cli_example)
       None) 3
  = Ok (Some (AffinityTransform (_get_offsets 3 VNone) true true)).
Proof.
  exact (proj1 (proj2 (proj2 (label_transform_of_handled_mode
    (with_label_mode (Some "affinities_and_foreground") cli_example) None 3)))
    eq_refl).
Defined.

Lemma get_loader_unhandled_mode_attribute_error_witness :
  rec_get_loader (VStr "a") VNone (VStr "b") VNone
    (train_2d_unet_args (with_label_mode (Some "instances") cli_example)) 2 false
  = Raise (AttributeError "label_model").
Proof.
  refine (proj1 (get_loader_unhandled_mode_attribute_error
    rec_dataset rec_loader rec_default_segmentation_dataset
    rec_random_split rec_get_data_loader 4
    (with_label_mode (Some "instances") cli_example) "instances" 2
    (VStr "a") VNone (VStr "b") VNone false eq_refl _)).
  apply (bool_decide_unpack _). vm_compute. exact I.
Defined.

(** *** The training functions *)

Example train_2d_unet_boundaries :
  rec_train_2d_unet (train_2d_unet_args (with_label_mode (Some "boundaries") cli_example))
  = Ok ().
Proof. vm_compute. reflexivity. Qed.

Example train_2d_unet_no_label_mode :
  rec_train_2d_unet (train_2d_unet_args cli_example) = Raise TypeError.
Proof. vm_compute. reflexivity. Qed.

Lemma res_bind_ok {A B} (m : res A) (f : A -> res B) (b : B) :
  m ≫= f = Ok b -> exists a, m = Ok a /\ f a = Ok b.
Proof. destruct m as [a | e]; [| discriminate]. intros H. exists a. split; [reflexivity | exact H]. Qed.

Lemma getattr_3d_other c sf a :
  a <> "scale_factors" ->
  getattr (train_3d_unet_args c sf) a = getattr (_get_training_parser c) a.
Proof.
  intros Ha. unfold train_3d_unet_args, getattr.
  rewrite lookup_insert_ne by congruence. reflexivity.
Qed.

Lemma getattr_3d_scale_factors c sf :
  getattr (train_3d_unet_args c sf) "scale_factors" = Ok (opt_str sf).
Proof. unfold train_3d_unet_args, getattr. rewrite lookup_insert_eq. reflexivity. Qed.

Lemma getattr_validation_inputs c :
  getattr (_get_training_parser c) "validation_inputs"
  = Ok (opt_strs (validation_inputs c)).
Proof. vm_compute. reflexivity. Qed.

Lemma getattr_n_iterations c :
  getattr (_get_training_parser c) "n_iterations" = Ok (VInt (n_iterations c)).
Proof. vm_compute. reflexivity. Qed.

Lemma getattr_validation_key c :
  getattr (_get_training_parser c) "validation_key"
  = Raise (AttributeError "validation_key").
Proof. vm_compute. reflexivity. Qed.

(** What the label-mode block answers on the 2d command line. *)
Lemma label_transform_2d c ndim lt :
  _get_loader_label_transform (train_2d_unet_args c) ndim = Ok lt ->
  label_mode c = None
  \/ label_mode c = Some "boundaries"
  \/ label_mode c = Some "boundaries_and_foreground"
  \/ label_mode c = Some "foreground".
Proof.
  unfold _get_loader_label_transform, train_2d_unet_args.
  rewrite getattr_label_mode.
  destruct (label_mode c) as [m |]; [| intros _; left; reflexivity].
  simpl.
  repeat (case_bool_decide; [subst m; try (vm_compute; discriminate); tauto |]).
  vm_compute. discriminate.
Qed.

(** What it answers on the 3d command line. *)
Lemma label_transform_3d c sf ndim lt :
  _get_loader_label_transform (train_3d_unet_args c sf) ndim = Ok lt ->
  label_mode c = None \/ exists m, label_mode c = Some m /\ m ∈ handled_modes.
Proof.
  unfold _get_loader_label_transform.
  rewrite (getattr_3d_other c sf "label_mode") by discriminate.
  rewrite getattr_label_mode.
  destruct (label_mode c) as [m |]; [| intros _; left; reflexivity].
  simpl. intros H. right. exists m. split; [reflexivity |].
  unfold handled_modes.
  repeat (case_bool_decide; [subst m; set_solver |]).
  revert H. unfold getattr, train_3d_unet_args.
  rewrite lookup_insert_ne by discriminate.
  rewrite parser_has_no_label_model. discriminate.
Qed.

Section LoadersOk.
  Variables Dataset Loader : Type.
  Variable default_segmentation_dataset :
    forall (input_paths input_key label_paths label_key patch_shape : pyval) (ndim : Z)
           (label_transform label_transform2 : option label_trafo), res Dataset.
  Variable random_split : Dataset -> list float -> res (Dataset * Dataset).
  Variable get_data_loader :
    forall (ds : Dataset) (batch_size : pyval) (shuffle : bool) (num_workers : Z), res Loader.
  Variable cpu_count : Z.

(** Loaders come back only without validation inputs and only when the
    label-mode block went through. *)
Lemma get_loaders_ok c args ndim r :
  args = train_2d_unet_args c \/ (exists sf, args = train_3d_unet_args c sf) ->
  _get_loaders Dataset Loader default_segmentation_dataset random_split
    get_data_loader cpu_count args ndim = Ok r ->
  validation_inputs c = None
  /\ exists lt, _get_loader_label_transform args ndim = Ok lt.
Proof.
  intros Hargs Hok.
  assert (Hvi : getattr args "validation_inputs" = Ok (opt_strs (validation_inputs c))).
  { destruct Hargs as [-> | [sf ->]]; rewrite ?getattr_3d_other by discriminate;
      apply getattr_validation_inputs. }
  assert (Hvk : getattr args "validation_key" = Raise (AttributeError "validation_key")).
  { destruct Hargs as [-> | [sf ->]]; rewrite ?getattr_3d_other by discriminate;
      apply getattr_validation_key. }
  unfold _get_loaders in Hok.
  apply res_bind_ok in Hok as [v [Hv Hok]].
  rewrite Hvi in Hv. injection Hv as <-.
  destruct (validation_inputs c) as [vi |]; cbn [opt_strs is_none] in Hok.
  - exfalso.
    do 6 (apply res_bind_ok in Hok as [? [_ Hok]]).
    apply res_bind_ok in Hok as [? [Hk _]].
    rewrite Hvk in Hk. discriminate.
  - split; [reflexivity |].
    do 6 (apply res_bind_ok in Hok as [? [_ Hok]]).
    apply res_bind_ok in Hok as [? [Hgl _]].
    unfold _get_loader in Hgl. apply res_bind_ok in Hgl as [lt [Hlt _]].
    exists lt. exact Hlt.
Qed.

End LoadersOk.

Section Training2d.
  Variables Dataset Loader Model Trainer : Type.
  Variable default_segmentation_dataset :
    forall (input_paths input_key label_paths label_key patch_shape : pyval) (ndim : Z)
           (label_transform label_transform2 : option label_trafo), res Dataset.
  Variable random_split : Dataset -> list float -> res (Dataset * Dataset).
  Variable get_data_loader :
    forall (ds : Dataset) (batch_size : pyval) (shuffle : bool) (num_workers : Z), res Loader.
  Variable cpu_count : Z.
  Variable next_batch : Loader -> res (list Z * list Z).
  Variable UNet2d : Z -> Z -> res Model.
  Variable uuid1 : string.
  Variable default_segmentation_trainer :
    forall (name : pyval) (model : Model) (train_loader val_loader : Loader)
           (loss metric : loss_fn) (compile_model : bool), res Trainer.
  Variable fit : Trainer -> pyval -> res unit.

  Abbreviation loaders_of := (_get_loaders Dataset Loader default_segmentation_dataset
                                random_split get_data_loader cpu_count).

(** [train_2d_unet] runs to the end only without validation inputs and
    with one of the label modes "boundaries", "boundaries_and_foreground"
    and "foreground", and the trainer it fits then has the plain [DiceLoss]
    as loss and metric.  Without a label mode the loaders are built and the
    test ["affinities" in args.label_mode] raises [TypeError]; the affinity
    modes raise before (C1), so the masked loss is never used. *)
Theorem train_2d_unet_completes c :
  let args := train_2d_unet_args c in
  let run := train_2d_unet Dataset Loader Model Trainer default_segmentation_dataset
               random_split get_data_loader cpu_count next_batch UNet2d uuid1
               default_segmentation_trainer fit args in
  (run = Ok () ->
     validation_inputs c = None
     /\ (label_mode c = Some "boundaries"
         \/ label_mode c = Some "boundaries_and_foreground"
         \/ label_mode c = Some "foreground")
     /\ exists train_loader val_loader model name trainer,
          loaders_of args 2 = Ok (train_loader, val_loader)
          /\ default_segmentation_trainer name model train_loader val_loader
               DiceLoss DiceLoss false = Ok trainer
          /\ fit trainer (VInt (n_iterations c)) = Ok ())
  /\ (label_mode c = None ->
      forall train_loader val_loader channels model,
        loaders_of args 2 = Ok (train_loader, val_loader) ->
        _determine_channels Loader next_batch train_loader args = Ok channels ->
        UNet2d channels.1 channels.2 = Ok model ->
        run = Raise TypeError).
Proof.
  intros args run. subst run. split.
  - intros Hrun. unfold train_2d_unet in Hrun.
    apply res_bind_ok in Hrun as [[tl vl] [Hload Hrun]].
    apply res_bind_ok in Hrun as [[ic oc] [Hch Hrun]].
    apply res_bind_ok in Hrun as [model [Hmodel Hrun]].
    apply res_bind_ok in Hrun as [loss [Hloss Hrun]].
    destruct (get_loaders_ok _ _ _ _ _ _ c args 2 _ (or_introl eq_refl) Hload)
      as [Hvi [lt Hlt]].
    apply label_transform_2d in Hlt.
    unfold train_unet_loss in Hloss. subst args.
    unfold train_2d_unet_args in Hloss. rewrite getattr_label_mode in Hloss.
    assert (Hmode : (label_mode c = Some "boundaries"
                     \/ label_mode c = Some "boundaries_and_foreground"
                     \/ label_mode c = Some "foreground") /\ loss = DiceLoss).
    { destruct Hlt as [Hm | [Hm | [Hm | Hm]]]; rewrite Hm in Hloss;
        vm_compute in Hloss; [discriminate | | |];
        (split; [tauto | congruence]). }
    destruct Hmode as [Hmode ->].
    split; [exact Hvi |]. split; [exact Hmode |].
    unfold train_unet_fit in Hrun.
    apply res_bind_ok in Hrun as [nm [_ Hrun]].
    apply res_bind_ok in Hrun as [trainer [Htrainer Hrun]].
    unfold train_2d_unet_args in Hrun. rewrite getattr_n_iterations in Hrun.
    simpl in Hrun.
    eexists tl, vl, model, _, trainer. repeat split; eassumption.
  - intros Hnone tl vl [ic oc] model Hload Hch Hmodel.
    unfold train_2d_unet. rewrite Hload. simpl. rewrite Hch. simpl.
    simpl in Hmodel. rewrite Hmodel. simpl.
    unfold train_unet_loss. subst args. unfold train_2d_unet_args.
    rewrite getattr_label_mode, Hnone. reflexivity.
Qed.
End Training2d.

Lemma train_2d_unet_completes_witness :
  let c := with_label_mode (Some "boundaries") cli_example in
  validation_inputs c = None
  /\ (label_mode c = Some "boundaries"
      \/ label_mode c = Some "boundaries_and_foreground"
      \/ label_mode c = Some "foreground").
Proof.
  intros c.
  destruct (proj1 (train_2d_unet_completes rec_dataset rec_loader rec_model rec_trainer
    rec_default_segmentation_dataset rec_random_split rec_get_data_loader 4
    (fun _ => Ok ([1; 1; 256; 256], [1; 2; 256; 256]))
    (fun i o => Ok (RecUNet2d i o)) "0000"
    (fun name model tl vl loss metric cm =>
       Ok {| tr_name := name; tr_model := model; tr_train_loader := tl;
             tr_val_loader := vl; tr_loss := loss; tr_metric := metric;
             tr_compile_model := cm |})
    (fun _ _ => Ok ()) c) ltac:(vm_compute; reflexivity)) as (H1 & H2 & _).
  split; assumption.
Defined.

Section Training3d.
  Variables Dataset Loader Model Trainer Json : Type.
  Variable default_segmentation_dataset :
    forall (input_paths input_key label_paths label_key patch_shape : pyval) (ndim : Z)
           (label_transform label_transform2 : option label_trafo), res Dataset.
  Variable random_split : Dataset -> list float -> res (Dataset * Dataset).
  Variable get_data_loader :
    forall (ds : Dataset) (batch_size : pyval) (shuffle : bool) (num_workers : Z), res Loader.
  Variable cpu_count : Z.
  Variable next_batch : Loader -> res (list Z * list Z).
  Variable UNet3d : Z -> Z -> res Model.
  Variable AnisotropicUNet : Z -> Z -> Json -> res Model.
  Variable json_loads : string -> res (option Json).
  Variable uuid1 : string.
  Variable default_segmentation_trainer :
    forall (name : pyval) (model : Model) (train_loader val_loader : Loader)
           (loss metric : loss_fn) (compile_model : bool), res Trainer.
  Variable fit : Trainer -> pyval -> res unit.

(** [train_3d_unet] runs to the end only without validation inputs and
    with a label mode, one of the five handled ones.  The trainer it fits
    has the [DiceLoss] wrapped to apply and remove the mask exactly for the
    two affinity modes and the plain [DiceLoss] otherwise, as loss and as
    metric; the model is a [UNet3d] without [--scale_factors] and also when
    the string given decodes to [None] (the json [null]), and an
    [AnisotropicUNet] on the decoded value otherwise. *)
Theorem train_3d_unet_completes c sf :
  let args := train_3d_unet_args c sf in
  train_3d_unet Dataset Loader Model Trainer Json default_segmentation_dataset
    random_split get_data_loader cpu_count next_batch UNet3d AnisotropicUNet
    json_loads uuid1 default_segmentation_trainer fit args = Ok () ->
  validation_inputs c = None
  /\ exists m train_loader val_loader model name trainer,
      label_mode c = Some m /\ m ∈ handled_modes
      /\ _get_loaders Dataset Loader default_segmentation_dataset random_split
           get_data_loader cpu_count args 3 = Ok (train_loader, val_loader)
      /\ (let loss := if bool_decide (m = "affinities" \/ m = "affinities_and_foreground")
                      then LossWrapper DiceLoss (ApplyAndRemoveMask "multiply")
                      else DiceLoss in
          default_segmentation_trainer name model train_loader val_loader
            loss loss false = Ok trainer)
      /\ fit trainer (VInt (n_iterations c)) = Ok ()
      /\ match sf with
         | None => exists i o, UNet3d i o = Ok model
         | Some s =>
             exists i o,
               (json_loads s = Ok None /\ UNet3d i o = Ok model)
               \/ (exists j, json_loads s = Ok (Some j)
                             /\ AnisotropicUNet i o j = Ok model)
         end.
Proof.
  intros args Hrun. unfold train_3d_unet in Hrun.
  apply res_bind_ok in Hrun as [sfv [Hsf Hrun]].
  subst args. rewrite getattr_3d_scale_factors in Hsf. injection Hsf as <-.
  apply res_bind_ok in Hrun as [scale_factors [Hjson Hrun]].
  apply res_bind_ok in Hrun as [[tl vl] [Hload Hrun]].
  apply res_bind_ok in Hrun as [[ic oc] [Hch Hrun]].
  apply res_bind_ok in Hrun as [model [Hmodel Hrun]].
  apply res_bind_ok in Hrun as [loss [Hloss Hrun]].
  destruct (get_loaders_ok _ _ _ _ _ _ c _ 3 _ (or_intror (ex_intro _ sf eq_refl)) Hload)
    as [Hvi [lt Hlt]].
  split; [exact Hvi |].
  apply label_transform_3d in Hlt.
  unfold train_unet_loss in Hloss.
  rewrite (getattr_3d_other c sf "label_mode") in Hloss by discriminate.
  rewrite getattr_label_mode in Hloss.
  destruct Hlt as [Hm | [m [Hm Hin]]]; rewrite Hm in Hloss;
    [vm_compute in Hloss; discriminate |].
  unfold train_unet_fit in Hrun.
  apply res_bind_ok in Hrun as [nm [_ Hrun]].
  apply res_bind_ok in Hrun as [trainer [Htrainer Hrun]].
  rewrite (getattr_3d_other c sf "n_iterations") in Hrun by discriminate.
  rewrite getattr_n_iterations in Hrun. simpl in Hrun.
  eexists m, tl, vl, model, _, trainer.
  split; [exact Hm |]. split; [exact Hin |]. split; [exact Hload |].
  split; [| split; [exact Hrun |]].
  - assert (Hl : loss = if bool_decide (m = "affinities" \/ m = "affinities_and_foreground")
                        then LossWrapper DiceLoss (ApplyAndRemoveMask "multiply")
                        else DiceLoss).
    { unfold handled_modes in Hin.
      repeat (apply elem_of_cons in Hin as [-> | Hin];
              [vm_compute in Hloss; injection Hloss as <-; vm_compute; reflexivity |]).
      inversion Hin. }
    cbv zeta. rewrite <- Hl. exact Htrainer.
  - destruct sf as [s |]; cbn [opt_str is_none] in Hjson.
    + exists ic, oc. destruct scale_factors as [j |].
      * right. exists j. split; assumption.
      * left. split; assumption.
    + injection Hjson as <-. exists ic, oc. exact Hmodel.
Qed.
End Training3d.

Lemma train_3d_unet_completes_witness :
  let c := with_patch_shape [32; 256; 256]
             (with_label_mode (Some "affinities") cli_example) in
  validation_inputs c = None.
Proof.
  intros c.
  exact (proj1 (train_3d_unet_completes rec_dataset rec_loader rec_model rec_trainer string
    rec_default_segmentation_dataset rec_random_split rec_get_data_loader 4
    (fun _ => Ok ([1; 1; 32; 256; 256], [1; 2; 32; 256; 256]))
    (fun i o => Ok (RecUNet3d i o))
    (fun i o sf => Ok (RecAnisotropicUNet i o sf))
    rec_json_loads "0000"
    (fun name model tl vl loss metric cm =>
       Ok {| tr_name := name; tr_model := model; tr_train_loader := tl;
             tr_val_loader := vl; tr_loss := loss; tr_metric := metric;
             tr_compile_model := cm |})
    (fun _ _ => Ok ()) c (Some "[1, 2, 2]") ltac:(vm_compute; reflexivity))).
Defined.

(** *** Offsets *)

(** [_get_offsets] never raises: for [ndim = 2] it gives 8 offsets of two
    entries, for every other [ndim] (3 or not) 12 offsets of three entries,
    and every offset has exactly one entry that is not zero, a negative one. *)
Theorem get_offsets_structure ndim scale_factors :
  let offsets := _get_offsets ndim scale_factors in
  (ndim = 2 -> length offsets = 8%nat /\ Forall (fun o => length o = 2%nat) offsets)
  /\ (ndim <> 2 -> length offsets = 12%nat /\ Forall (fun o => length o = 3%nat) offsets)
  /\ Forall (fun o => length (filter (fun z => z <> 0) o) = 1%nat
                      /\ Forall (fun z => z <= 0) o) offsets.
Proof.
  intros offsets. subst offsets. unfold _get_offsets.
  case_bool_decide as H2.
  - split; [intros _ | split; [intros Hne; contradiction |]];
      apply (bool_decide_unpack _); vm_compute; exact I.
  - destruct (bool_decide (ndim = 3) && is_none scale_factors);
      (split; [intros Heq; contradiction | split; [intros _ |]]);
      apply (bool_decide_unpack _); vm_compute; exact I.
Qed.

(** *** The prediction functions *)

Lemma tiling_getattr c bs halo devs :
  let args := predict_with_tiling_args c bs halo devs in
  getattr args "block_shape" = Ok (VInts bs)
  /\ getattr args "halo" = Ok (opt_ints halo)
  /\ getattr args "devices" = Ok (opt_strs devs).
Proof. repeat split; vm_compute; reflexivity. Qed.

Section Prediction.
  Variables Model Array : Type.
  Variable array_ndim : Array -> Z.
  Variable get_trainer_model : pyval -> pyval -> res Model.
  Variable imread : pyval -> res Array.
  Variable open_file_read : pyval -> pyval -> res Array.
  Variable imwrite : pyval -> Array -> res unit.
  Variable require_dataset_write :
    forall (path key : pyval) (chunks compression : option pyval)
           (n_threads : Z) (pred : Array), res unit.
  Variable predict_with_halo :
    forall (input_ : Array) (model : Model) (gpu_ids : pyval)
           (block_shape halo : pyval) (pred_2d : bool), res Array.
  Variable cuda_is_available : bool.
  Variable cpu_count : Z.

  Abbreviation prediction := (_prediction Model Array array_ndim get_trainer_model
    imread open_file_read imwrite require_dataset_write cpu_count).
  Abbreviation tiling := (predict_with_tiling Model Array array_ndim get_trainer_model
    imread open_file_read imwrite require_dataset_write predict_with_halo
    cuda_is_available cpu_count).
  Abbreviation tiling_predict := (predict_with_tiling_predict Model Array predict_with_halo).

(** [predict_with_tiling] on every parsed namespace (a block shape of at
    least one entry, devices, when given, too).  A halo whose length is not
    that of the block shape raises [AssertionError] before the checkpoint is
    loaded or anything else is touched.  Otherwise the prediction runs on
    the first device with the halo given, or with one zero per entry of the
    block shape when none is given, and predicts slice by slice in 2d
    exactly when the first entry of the block shape is 1. *)
Theorem predict_with_tiling_halo c bs halo devs d0 :
  bs <> [] ->
  head (match devs with
        | Some ds => ds
        | None => [if cuda_is_available then "cuda" else "cpu"]
        end) = Some d0 ->
  let args := predict_with_tiling_args c bs halo devs in
  let devices := VStrs (match devs with
                        | Some ds => ds
                        | None => [if cuda_is_available then "cuda" else "cpu"]
                        end) in
  let pred_2d := bool_decide (head bs = Some 1) in
  match halo with
  | Some h =>
      (length h <> length bs -> tiling args = ([], Raise (AssertionError [])))
      /\ (length h = length bs ->
          tiling args
          = prediction args (tiling_predict devices (VInts bs) (VInts h) pred_2d) (VStr d0))
  | None =>
      tiling args
      = prediction args
          (tiling_predict devices (VInts bs) (VInts (replicate (length bs) 0)) pred_2d)
          (VStr d0)
  end.
Proof.
  intros Hbs Hd0 args devices pred_2d.
  destruct (tiling_getattr c bs halo devs) as (Hb & Hh & Hd).
  fold args in Hb, Hh, Hd.
  destruct bs as [| b0 bs']; [congruence |]. clear Hbs.
  assert (Hp2 : pred_2d = bool_decide (b0 = 1)).
  { subst pred_2d. cbn [head]. apply bool_decide_ext. split; congruence. }
  assert (Hdev : forall k : pyval -> io (pred_event Array) unit,
            ((if is_none (opt_strs devs)
              then mret (VStrs [if cuda_is_available then "cuda" else "cpu"])
              else lift (Ok (opt_strs devs))) ≫= k) = k devices).
  { intros k. subst devices. destruct devs as [ds |]; cbn [opt_strs is_none].
    - apply io_bind_lift_ok.
    - apply io_bind_ret. }
  assert (Hfirst : py_first devices = Ok (VStr d0)).
  { subst devices. destruct devs as [[| d ds] |]; cbn in Hd0 |- *; congruence. }
  unfold predict_with_tiling. rewrite Hb, Hh, Hd.
  rewrite !io_bind_lift_ok.
  destruct halo as [h |]; cbn [opt_ints is_none].
  - rewrite !io_bind_lift_ok. cbn [py_len]. rewrite !io_bind_lift_ok.
    split; intros Hlen.
    + rewrite bool_decide_eq_false_2 by (cbn [length] in *; lia). reflexivity.
    + rewrite bool_decide_eq_true_2 by (cbn [length] in *; lia).
      rewrite ?io_bind_lift_ok, Hdev. cbn [py_first].
      rewrite io_bind_lift_ok, Hfirst, io_bind_lift_ok, <- Hp2. reflexivity.
  - cbn [py_len]. rewrite io_bind_lift_ok, io_bind_ret. cbn [py_len].
    rewrite !io_bind_lift_ok, Nat2Z.id, length_replicate.
    rewrite bool_decide_eq_true_2 by reflexivity.
    rewrite ?io_bind_lift_ok, Hdev. cbn [py_first].
    rewrite io_bind_lift_ok, Hfirst, io_bind_lift_ok, <- Hp2. reflexivity.
Qed.
End Prediction.


Lemma predict_with_tiling_halo_witness :
  rec_predict_with_tiling
    (predict_with_tiling_args prediction_example [1; 512; 512] (Some [0; 32]) None)
  = ([], Raise (AssertionError [])).
Proof.
  refine (proj1 (predict_with_tiling_halo unit Z (fun a => a)
            (fun _ _ => Ok ()) (fun _ => Ok 3) (fun _ _ => Ok 3)
            (fun _ _ => Ok ()) (fun _ _ _ _ _ _ => Ok ())
            (fun _ _ _ _ _ _ => Ok 3) false 8
            prediction_example [1; 512; 512] (Some [0; 32]) None "cpu" _ _) _).
  - discriminate.
  - reflexivity.
  - cbn. lia.
Defined.

Section PredictionOutput.
  Variables Model Array : Type.
  Variable array_ndim : Array -> Z.
  Variable get_trainer_model : pyval -> pyval -> res Model.
  Variable imread : pyval -> res Array.
  Variable open_file_read : pyval -> pyval -> res Array.
  Variable imwrite : pyval -> Array -> res unit.
  Variable require_dataset_write :
    forall (path key : pyval) (chunks compression : option pyval)
           (n_threads : Z) (pred : Array), res unit.
  Variable cpu_count : Z.

(** [_prediction] with [--chunks] of a length that is not the number of
    dimensions of the prediction, once the model is loaded, the input read
    (with [imread] without an input key, from the container with one) and
    the prediction computed.  Without [--output_key] the chunks are never
    looked at: the prediction is written with [imwrite].  With an output
    key the run raises [AssertionError], and only then: after the model was
    loaded and the whole prediction computed, and nothing is written. *)
Theorem prediction_chunks_checked_after_predicting
    args (predict : Model -> Array -> io (pred_event Array) Array) device
    checkpoint model input_key input_path input_ trace pred chunks output_path :
  getattr args "checkpoint" = Ok checkpoint ->
  get_trainer_model checkpoint device = Ok model ->
  getattr args "input_key" = Ok input_key ->
  getattr args "input_path" = Ok input_path ->
  (if is_none input_key then imread input_path
   else open_file_read input_path input_key) = Ok input_ ->
  predict model input_ = (trace, Ok pred) ->
  getattr args "chunks" = Ok (VInts chunks) ->
  Z.of_nat (length chunks) <> array_ndim pred ->
  getattr args "output_path" = Ok output_path ->
  let run := _prediction Model Array array_ndim get_trainer_model imread
               open_file_read imwrite require_dataset_write cpu_count
               args predict device in
  let read := if is_none input_key then Imread input_path
              else OpenFileRead input_path input_key in
  (getattr args "output_key" = Ok VNone ->
   run = (GetTrainer checkpoint device :: read :: trace ++ [Imwrite output_path pred],
          imwrite output_path pred))
  /\ (forall key, getattr args "output_key" = Ok (VStr key) ->
      run = (GetTrainer checkpoint device :: read :: trace, Raise (AssertionError []))).
Proof.
  intros Hck Hmodel Hik Hip Hread Hpred Hch Hlen Hop run read.
  subst run read. unfold _prediction.
  rewrite Hck, io_bind_lift_ok, io_bind_emit, Hmodel, io_bind_lift_ok.
  rewrite Hik, !io_bind_lift_ok, Hip, !io_bind_lift_ok, !io_bind_emit.
  cbv beta.
  assert (Hin : forall e : pred_event Array,
            ((e :: (lift (if is_none input_key then imread input_path
                          else open_file_read input_path input_key)
                    ≫= predict model).1,
              (lift (if is_none input_key then imread input_path
                     else open_file_read input_path input_key)
               ≫= predict model).2) : io (pred_event Array) Array)
            = (e :: trace, Ok pred)).
  { intros e. rewrite Hread, io_bind_lift_ok, Hpred. reflexivity. }
  destruct (is_none input_key); rewrite Hin, io_bind_ok; cbn [fst snd app];
    (split; [intros Hok | intros key Hok]);
    rewrite Hok, io_bind_lift_ok; cbn [is_none].
  1, 3: rewrite Hop, io_bind_lift_ok, io_bind_emit; reflexivity.
  all: rewrite Hch, io_bind_lift_ok; cbn [is_none py_len];
    rewrite io_bind_lift_ok, bool_decide_eq_false_2 by exact Hlen;
    cbn; rewrite app_nil_r; reflexivity.
Qed.
End PredictionOutput.

Lemma prediction_chunks_checked_after_predicting_witness :
  let args := _get_prediction_parser prediction_example in
  let predict := predict_with_tiling_predict unit Z (fun _ _ _ _ _ _ => Ok 3)
                   (VStrs ["cpu"]) (VInts [64; 64; 64]) (VInts [0; 0; 0]) false in
  _prediction unit Z (fun a => a) (fun _ _ => Ok ()) (fun _ => Ok 3) (fun _ _ => Ok 3)
    (fun _ _ => Ok ()) (fun _ _ _ _ _ _ => Ok ()) 8 args predict (VStr "cpu")
  = ([GetTrainer (VStr "checkpoints/unet") (VStr "cpu");
      OpenFileRead (VStr "volume.h5") (VStr "raw");
      PredictWithHalo (VStrs ["cpu"]) (VInts [64; 64; 64]) (VInts [0; 0; 0]) false],
     Raise (AssertionError [])).
Proof.
  intros args predict.
  refine (proj2 (prediction_chunks_checked_after_predicting unit Z (fun a => a)
            (fun _ _ => Ok ()) (fun _ => Ok 3) (fun _ _ => Ok 3)
            (fun _ _ => Ok ()) (fun _ _ _ _ _ _ => Ok ()) 8
            args predict (VStr "cpu")
            (VStr "checkpoints/unet") () (VStr "raw") (VStr "volume.h5") 3
            [PredictWithHalo (VStrs ["cpu"]) (VInts [64; 64; 64]) (VInts [0; 0; 0]) false]
            3 [64; 64] (VStr "prediction.h5") _ _ _ _ _ _ _ _ _) "pred" _);
    try (vm_compute; reflexivity).
  vm_compute. discriminate.
Defined.

End CliFacts.

(** ** experiments/shallow2deep/em-mitochondria/train_mito_3d.py *)
Module TrainMito3dFacts.
Import TrainMito3d.

Example normalize_datasets_sorts :
  normalize_datasets ["urocell"; "lucchi"; "urocell"] = Ok ["lucchi"; "urocell"; "urocell"].
Proof. vm_compute. reflexivity. Qed.

Example normalize_datasets_rejects :
  normalize_datasets ["urocell"; "kasthuri"; "lucchi"]
  = Raise (ValueError [Lit "Unkown datasets: "; FStrs ["kasthuri"];
                       Lit ". Only "; FStrs DATASETS; Lit " are supported"]).
Proof. vm_compute. reflexivity. Qed.

(** C5.  [normalize_datasets] either returns the requested names in sorted
    order (a sorted permutation of the request), which happens exactly when
    every requested name is one of "lucchi", "platy", "urocell", or raises
    the [ValueError] that lists the offending names: each requested name
    that is not supported, once, and nothing else; this list is not empty. *)
Theorem normalize_datasets_spec (datasets : list string) :
  match normalize_datasets datasets with
  | Ok out =>
      Forall (fun d => d ∈ ["lucchi"; "platy"; "urocell"]) datasets
      /\ Sorted str_le out /\ out ≡ₚ datasets
  | Raise e =>
      exists wrong_ds,
        e = ValueError [Lit "Unkown datasets: "; FStrs wrong_ds;
                        Lit ". Only "; FStrs ["lucchi"; "platy"; "urocell"];
                        Lit " are supported"]
        /\ wrong_ds <> [] /\ NoDup wrong_ds
        /\ (forall d, d ∈ wrong_ds <->
                      d ∈ datasets /\ d ∉ ["lucchi"; "platy"; "urocell"])
        /\ (exists d, d ∈ datasets /\ d ∉ ["lucchi"; "platy"; "urocell"])
  end.
Proof.
  unfold normalize_datasets.
  set (wrong := elements ((list_to_set datasets : gset string) ∖ list_to_set DATASETS)).
  assert (Hwrong : forall d, d ∈ wrong <-> d ∈ datasets /\ d ∉ DATASETS).
  { intros d. unfold wrong.
    rewrite elem_of_elements, elem_of_difference, !elem_of_list_to_set.
    reflexivity. }
  case_bool_decide as Hne.
  - exists wrong. split; [reflexivity |]. split; [exact Hne |].
    split; [apply NoDup_elements |]. split; [exact Hwrong |].
    destruct wrong as [| d ?] eqn:E; [congruence |].
    exists d. apply Hwrong. left.
  - split; [| split].
    + apply Forall_forall. intros d Hd.
      destruct (decide (d ∈ DATASETS)) as [Hin | Hout]; [exact Hin |].
      assert (d ∈ wrong) as Hin by (apply Hwrong; split; assumption).
      assert (wrong = []) as Hnil by (destruct (decide (wrong = [])); tauto).
      rewrite Hnil in Hin. inversion Hin.
    + apply sorted_Sorted.
    + apply sorted_Permutation.
Qed.





(** *** Forest preparation over several datasets *)

Lemma require_rfs_raised w args t e datasets n_rfs strategy :
  foldl (fun acc ds => _ ← acc; require_rfs_ds w args ds n_rfs strategy)
        ((t, Raise e) : io event unit) datasets = (t, Raise e).
Proof. induction datasets as [| d l IH]; [reflexivity | exact IH]. Qed.

Lemma require_rfs_snoc w args datasets d n_rfs strategy :
  require_rfs w args (datasets ++ [d]) n_rfs strategy
  = (_ ← require_rfs w args datasets n_rfs strategy;
     require_rfs_ds w args d n_rfs strategy).
Proof. unfold require_rfs. rewrite foldl_app. reflexivity. Qed.

Lemma require_rfs_ds_platy w args n_rfs strategy :
  let out_folder := os_path_join DATA_ROOT ["rfs3d-" +:+ strategy; "platy"] in
  Z.of_nat (length (glob w (os_path_join out_folder ["*.pkl"]))) <> n_rfs ->
  require_rfs_ds w args "platy" n_rfs strategy
  = ([Makedirs out_folder; Makedirs DATA_ROOT], Raise NotImplementedError).
Proof.
  intros out_folder Hn. unfold require_rfs_ds. fold out_folder.
  rewrite bool_decide_eq_false_2 by exact Hn. reflexivity.
Qed.

Lemma require_rfs_platy w args before after n_rfs strategy :
  let out_folder := os_path_join DATA_ROOT ["rfs3d-" +:+ strategy; "platy"] in
  Z.of_nat (length (glob w (os_path_join out_folder ["*.pkl"]))) <> n_rfs ->
  require_rfs w args (before ++ "platy" :: after) n_rfs strategy
  = match require_rfs w args before n_rfs strategy with
    | (t, Ok _) => (t ++ [Makedirs out_folder; Makedirs DATA_ROOT],
                    Raise NotImplementedError)
    | (t, Raise e) => (t, Raise e)
    end.
Proof.
  intros out_folder Hn.
  replace (before ++ "platy" :: after) with ((before ++ ["platy"]) ++ after)
    by (rewrite <- app_assoc; reflexivity).
  unfold require_rfs at 1. rewrite foldl_app.
  fold (require_rfs w args (before ++ ["platy"]) n_rfs strategy).
  rewrite require_rfs_snoc.
  destruct (require_rfs w args before n_rfs strategy) as [t [[] | e]].
  - rewrite io_bind_ok, (require_rfs_ds_platy w args n_rfs strategy Hn).
    cbn [fst snd]. apply require_rfs_raised.
  - apply require_rfs_raised.
Qed.




(** *** Loaders and training *)

Lemma all_but_last_snoc (l : list string) x : all_but_last (l ++ [x]) = l.
Proof.
  unfold all_but_last. rewrite length_app. cbn [length].
  replace (length l + 1 - 1)%nat with (length l) by lia.
  apply take_app_length.
Qed.

Lemma last_only_snoc (l : list string) x : last_only (l ++ [x]) = [x].
Proof.
  unfold last_only. rewrite length_app. cbn [length].
  replace (length l + 1 - 1)%nat with (length l) by lia.
  apply drop_app_length.
Qed.

Lemma sorted_nil_iff (l : list string) : sorted l = [] <-> l = [].
Proof.
  split.
  - intros H. apply Permutation_nil_r. rewrite <- H. symmetry. apply sorted_Permutation.
  - intros ->. reflexivity.
Qed.

Lemma normalize_datasets_ok datasets out :
  normalize_datasets datasets = Ok out ->
  out = sorted datasets /\ Forall (fun d => d ∈ DATASETS) datasets.
Proof.
  unfold normalize_datasets.
  set (wrong := elements ((list_to_set datasets : gset string) ∖ list_to_set DATASETS)).
  case_bool_decide as Hne; [discriminate |].
  intros [= <-]. split; [reflexivity |].
  apply Forall_forall. intros d Hd.
  destruct (decide (d ∈ DATASETS)) as [Hin | Hout]; [exact Hin |].
  assert (d ∈ wrong) as Hin.
  { unfold wrong. rewrite elem_of_elements, elem_of_difference, !elem_of_list_to_set.
    split; assumption. }
  assert (wrong = []) as Hnil by (destruct (decide (wrong = [])); tauto).
  rewrite Hnil in Hin. inversion Hin.
Qed.

Lemma elem_of_sorted (l : list string) d : d ∈ sorted l <-> d ∈ l.
Proof. rewrite (sorted_Permutation l). reflexivity. Qed.

Section Loaders.
  Variables Dataset Loader : Type.
  Variable get_shallow2deep_dataset : dataset_kwargs -> res Dataset.
  Variable ConcatDataset : list Dataset -> res Dataset.
  Variable DataLoader : Dataset -> bool -> Z -> Z -> res Loader.
  Variable set_shuffle : Loader -> bool -> Loader.

End Loaders.



Lemma append_inj_l (x a b : string) : x +:+ a = x +:+ b -> a = b.
Proof. induction x as [| c x IH]; cbn; [tauto | intros [= H]; auto]. Qed.

Lemma path_join_neq x a b :
  String.prefix "/" a = false -> String.prefix "/" b = false ->
  a <> b -> path_join x a <> path_join x b.
Proof.
  intros Ha Hb Hne. unfold path_join. rewrite Ha, Hb.
  destruct (bool_decide (x = "") || ends_with_slash x); intros H.
  - apply Hne. eapply append_inj_l, H.
  - apply Hne. eapply (append_inj_l "/"), append_inj_l, H.
Qed.

Lemma out_folder_not_kasthuri strategy d :
  d ∈ DATASETS ->
  os_path_join DATA_ROOT ["rfs3d-" +:+ strategy; d]
  <> os_path_join DATA_ROOT ["rfs3d-" +:+ strategy; "kasthuri"].
Proof.
  intros Hd. cbn [os_path_join foldl].
  unfold DATASETS in Hd. rewrite !elem_of_cons in Hd.
  destruct Hd as [-> | [-> | [-> | Hd]]]; [| | | inversion Hd];
    apply path_join_neq; reflexivity || discriminate.
Qed.

Lemma require_ds_trace w d folder :
  Forall (prepares_elsewhere folder) (require_ds w d).1.
Proof.
  unfold require_ds.
  apply io_bind_trace; [repeat constructor | intros _].
  repeat case_bool_decide.
  - apply io_bind_trace; [repeat constructor | intros _].
    apply io_bind_trace; [constructor | intros _].
    destruct (forallb _ _); constructor.
  - constructor.
  - apply io_bind_trace; [repeat constructor | intros _].
    apply io_bind_trace; [constructor | intros _]. constructor.
  - constructor.
Qed.

Lemma require_rfs_ds_trace w sargs d n_rfs strategy :
  d ∈ DATASETS ->
  Forall (prepares_elsewhere (os_path_join DATA_ROOT ["rfs3d-" +:+ strategy; "kasthuri"]))
         (require_rfs_ds w sargs d n_rfs strategy).1.
Proof.
  intros Hd. pose proof (out_folder_not_kasthuri strategy d Hd) as Hne.
  unfold require_rfs_ds.
  apply io_bind_trace; [repeat constructor | intros _].
  case_bool_decide; [constructor |].
  apply io_bind_trace; [apply require_ds_trace | intros [[paths rk] lk]].
  case_bool_decide.
  - apply io_bind_trace; [| intros _; constructor].
    constructor; [exact Hne | constructor].
  - apply io_bind_trace; [| intros _; constructor].
    constructor; [exact Hne | constructor].
Qed.

Section Training.
  Variables Dataset Loader Model Trainer : Type.
  Variable get_shallow2deep_dataset : dataset_kwargs -> res Dataset.
  Variable ConcatDataset : list Dataset -> res Dataset.
  Variable DataLoader : Dataset -> bool -> Z -> Z -> res Loader.
  Variable set_shuffle : Loader -> bool -> Loader.
  Variable UNet3d : Z -> Z -> string -> Z -> Z -> res Model.
  Variable default_segmentation_trainer :
    string -> Model -> Loader -> Loader -> float -> loss_fn -> pyval -> Z -> res Trainer.
  Variable fit : Trainer -> Z -> res unit.

  Abbreviation loader := (get_loader Dataset Loader get_shallow2deep_dataset
    ConcatDataset DataLoader set_shuffle).

Lemma get_ds_no_forests w file_pattern rf_pattern n_samples label_key
    path_selection check_labels :
  glob w rf_pattern = [] ->
  get_ds Dataset get_shallow2deep_dataset w file_pattern rf_pattern n_samples
    label_key path_selection check_labels = Raise (AssertionError []).
Proof. intros Hg. unfold get_ds. rewrite Hg. case_bool_decide; reflexivity. Qed.

Lemma get_loader_lucchi_needs_kasthuri w args split dataset_names :
  "lucchi" ∈ dataset_names ->
  glob w (os_path_join
            (os_path_join DATA_ROOT ["rfs3d-" +:+ ta_sampling_strategy args; "kasthuri"])
            ["*.pkl"]) = [] ->
  loader w args split dataset_names = Raise (AssertionError []).
Proof.
  intros Hl Hg. unfold get_loader.
  rewrite (bool_decide_eq_true_2 ("lucchi" ∈ dataset_names)) by exact Hl.
  cbv zeta.
  rewrite (get_ds_no_forests w _
             (os_path_join DATA_ROOT
                ["rfs3d-" +:+ ta_sampling_strategy args; "kasthuri"; "*.pkl"]))
    by exact Hg.
  reflexivity.
Qed.

Lemma get_loader_no_dataset w args split dataset_names :
  "lucchi" ∉ dataset_names -> "urocell" ∉ dataset_names ->
  loader w args split dataset_names = Raise IndexError.
Proof.
  intros Hl Hu. unfold get_loader.
  rewrite (bool_decide_eq_false_2 ("lucchi" ∈ dataset_names)) by exact Hl.
  rewrite (bool_decide_eq_false_2 ("urocell" ∈ dataset_names)) by exact Hu.
  reflexivity.
Qed.

(** For "lucchi" the loaders read the forests of the folder
    [rfs3d-<strategy>/kasthuri], which is not where they are prepared:
    on supported datasets [require_rfs] never prepares forests in that
    folder, and whenever it holds no ".pkl" file [get_loader] with "lucchi"
    among the names raises [AssertionError], whatever the lucchi folder
    holds. *)
Theorem lucchi_loader_reads_kasthuri_forests w w' sargs args split datasets n_rfs :
  let kasthuri :=
    os_path_join DATA_ROOT ["rfs3d-" +:+ ta_sampling_strategy args; "kasthuri"] in
  Forall (fun d => d ∈ DATASETS) datasets ->
  Forall (prepares_elsewhere kasthuri)
         (require_rfs w sargs datasets n_rfs (ta_sampling_strategy args)).1
  /\ ("lucchi" ∈ datasets ->
      glob w' (os_path_join kasthuri ["*.pkl"]) = [] ->
      loader w' args split datasets = Raise (AssertionError [])).
Proof.
  intros kasthuri Hds. split.
  - induction datasets as [| d l IH] using rev_ind; [constructor |].
    apply Forall_app in Hds as [Hl Hd].
    rewrite require_rfs_snoc.
    apply io_bind_trace; [exact (IH Hl) | intros _].
    apply require_rfs_ds_trace. inversion Hd; assumption.
  - apply get_loader_lucchi_needs_kasthuri.
Qed.

(** [train_shallow2deep] can only complete when every requested dataset is
    supported, "lucchi" or "urocell" is among them, and the platy forests,
    when "platy" is requested, are already there.  The trainer is then built
    on the sorted names with the plain [DiceLoss]: the loss is never wrapped
    with [MaskIgnoreLabel]. *)
Theorem train_shallow2deep_completes w w' args :
  (train_shallow2deep Dataset Loader Model Trainer get_shallow2deep_dataset
     ConcatDataset DataLoader set_shuffle UNet3d default_segmentation_trainer fit
     w w' args).2 = Ok () ->
  let datasets := sorted (ta_datasets args) in
  let strategy := ta_sampling_strategy args in
  Forall (fun d => d ∈ DATASETS) (ta_datasets args)
  /\ ("lucchi" ∈ ta_datasets args \/ "urocell" ∈ ta_datasets args)
  /\ ("platy" ∈ ta_datasets args ->
      Z.of_nat (length (glob w (os_path_join
                  (os_path_join DATA_ROOT ["rfs3d-" +:+ strategy; "platy"]) ["*.pkl"])))
      = ta_n_rfs args)
  /\ exists model train_loader val_loader trainer,
       UNet3d 1 2 "Sigmoid" 4 32 = Ok model
       /\ loader w' args "train" datasets = Ok train_loader
       /\ loader w' args "val" datasets = Ok val_loader
       /\ default_segmentation_trainer
            ("s2d-em-mitos-" +:+ String.concat "_" datasets +:+ "-3d-" +:+ strategy)
            model train_loader val_loader 0x1.a36e2eb1c432dp-14%float DiceLoss
            (ta_device args) 50 = Ok trainer
       /\ fit trainer (ta_n_iterations args) = Ok ().
Proof.
  intros Hrun datasets strategy. unfold train_shallow2deep in Hrun.
  destruct (normalize_datasets (ta_datasets args)) as [out | e] eqn:Hnorm;
    [| discriminate Hrun].
  apply normalize_datasets_ok in Hnorm as [-> Hsup]. fold datasets in Hrun.
  rewrite io_bind_lift_ok in Hrun. cbv zeta in Hrun. fold strategy in Hrun.
  rewrite io_bind_result in Hrun.
  destruct (require_rfs w (script_args_of args) datasets (ta_n_rfs args) strategy)
    as [t [[] | e]] eqn:Hrfs; cbn [snd] in Hrun; [| discriminate Hrun].
  destruct (UNet3d 1 2 "Sigmoid" 4 32) as [model | e]; [| discriminate Hrun].
  rewrite io_bind_lift_ok in Hrun.
  destruct (loader w' args "train" datasets) as [tl | e] eqn:Htl; [| discriminate Hrun].
  rewrite io_bind_lift_ok in Hrun.
  destruct (loader w' args "val" datasets) as [vl | e] eqn:Hvl; [| discriminate Hrun].
  rewrite io_bind_lift_ok in Hrun.
  assert (Hk : "kasthuri" ∉ datasets).
  { intros Hin. apply (proj1 (elem_of_sorted _ _)) in Hin.
    rewrite Forall_forall in Hsup. specialize (Hsup _ Hin).
    revert Hsup. apply (bool_decide_unpack _). vm_compute. exact I. }
  rewrite (bool_decide_eq_false_2 _ Hk) in Hrun.
  destruct (default_segmentation_trainer _ model tl vl _ DiceLoss (ta_device args) 50)
    as [trainer | e] eqn:Htr; [| discriminate Hrun].
  rewrite io_bind_lift_ok in Hrun. cbn [lift snd] in Hrun.
  split; [exact Hsup |]. split; [| split].
  - destruct (decide ("lucchi" ∈ datasets)) as [Hl | Hl];
      [left; exact (proj1 (elem_of_sorted _ _) Hl) |].
    destruct (decide ("urocell" ∈ datasets)) as [Hu | Hu];
      [right; exact (proj1 (elem_of_sorted _ _) Hu) |].
    rewrite (get_loader_no_dataset w' args "train" datasets Hl Hu) in Htl.
    discriminate Htl.
  - intros Hp. apply (proj2 (elem_of_sorted _ _)) in Hp. fold datasets in Hp.
    apply list_elem_of_split in Hp as (before & after & Hsplit).
    destruct (decide (Z.of_nat (length (glob w (os_path_join
                (os_path_join DATA_ROOT ["rfs3d-" +:+ strategy; "platy"]) ["*.pkl"])))
              = ta_n_rfs args)) as [Heq | Hne]; [exact Heq |].
    rewrite Hsplit in Hrfs.
    rewrite (require_rfs_platy w (script_args_of args) before after
               (ta_n_rfs args) strategy Hne) in Hrfs.
    destruct (require_rfs w (script_args_of args) before (ta_n_rfs args) strategy)
      as [t' [[] | e']]; discriminate Hrfs.
  - exists model, tl, vl, trainer. repeat split; assumption.
Qed.
End Training.


Lemma lucchi_loader_reads_kasthuri_forests_witness :
  rec_get_loader empty_world urocell_args "train" ["lucchi"; "urocell"]
  = Raise (AssertionError []).
Proof.
  refine (proj2 (lucchi_loader_reads_kasthuri_forests
    (list dataset_kwargs) (list dataset_kwargs * bool * Z * Z)
    (fun kw => Ok [kw]) (fun ds => Ok (concat ds))
    (fun ds shuffle batch_size num_workers => Ok (ds, shuffle, batch_size, num_workers))
    (fun loader shuffle =>
       let '(ds, _, batch_size, num_workers) := loader in
       (ds, shuffle, batch_size, num_workers))
    empty_world empty_world default_args urocell_args "train" ["lucchi"; "urocell"] 500 _)
    _ _).
  - apply (bool_decide_unpack _). vm_compute. exact I.
  - apply (bool_decide_unpack _). vm_compute. exact I.
  - reflexivity.
Defined.

Lemma train_shallow2deep_completes_witness :
  (rec_train_shallow2deep urocell_world urocell_world urocell_args).2 = Ok ()
  /\ Forall (fun d => d ∈ DATASETS) (ta_datasets urocell_args).
Proof.
  split; [vm_compute; reflexivity |].
  refine (proj1 (train_shallow2deep_completes
    (list dataset_kwargs) (list dataset_kwargs * bool * Z * Z) unit (string * loss_fn)
    (fun kw => Ok [kw]) (fun ds => Ok (concat ds))
    (fun ds shuffle batch_size num_workers => Ok (ds, shuffle, batch_size, num_workers))
    (fun loader shuffle =>
       let '(ds, _, batch_size, num_workers) := loader in
       (ds, shuffle, batch_size, num_workers))
    (fun _ _ _ _ _ => Ok ())
    (fun name _ _ _ _ loss _ _ => Ok (name, loss))
    (fun _ _ => Ok ())
    urocell_world urocell_world urocell_args _)).
  vm_compute. reflexivity.
Defined.

End TrainMito3dFacts.

(** ** torch_em/self_training/logger.py *)
Module LoggerFacts.
Import Logger.

Lemma py_mod_zero_iff (a b : Z) :
  b <> 0 -> (a `mod` b = 0 <-> (b | a)).
Proof. intros Hb. apply Z.mod_divide. exact Hb. Qed.

Section Tensorboard.
  Variables scalar tensor image : Type.
  Variable item0 : tensor -> image.
  Variable normalize : image -> image.
  Variable make_grid : list image -> option Z -> Z -> image.

  Abbreviation call := (tb_call scalar image).
  Abbreviation logger := SelfTrainingTensorboardLogger.

(** C3.  [log_train_supervised] and [log_train_unsupervised] add their loss
    scalar on every call, first, and add the image grid exactly when the
    interval is not zero and divides the step (an interval of zero raises
    [ZeroDivisionError] after the scalar; no image is added then);
    [log_validation_supervised] and [log_validation_unsupervised] add the
    loss scalar, the metric scalar and the image grid on every call,
    whatever the step. *)
Theorem logger_scalars_and_images
    (self : logger) (step : Z) (loss metric : scalar)
    (x y pred x1 x2 pseudo_labels : tensor) (label_filter : option tensor) :
  let k := log_image_interval self in
  let images_due := bool_decide (k <> 0 /\ (k | step)) in
  let outcome : res unit := if bool_decide (k = 0) then Raise ZeroDivisionError else Ok () in
  let sup := add_image "validation/supervised/input-labels-prediction"
               (supervised_grid _ _ item0 normalize make_grid x y pred) step in
  let unsup := add_image "validation/unsupervised/aug1-aug2-prediction-pseudolabels"
               (unsupervised_grid _ _ item0 normalize make_grid
                  x1 x2 pred pseudo_labels label_filter) step in
  log_train_supervised _ _ _ item0 normalize make_grid self step loss x y pred
    = (add_scalar "train/supervised/loss" loss step
         :: (if images_due then [sup] else []), outcome)
  /\ log_train_unsupervised _ _ _ item0 normalize make_grid self step loss
       x1 x2 pred pseudo_labels label_filter
    = (add_scalar "train/unsupervised/loss" loss step
         :: (if images_due then [unsup] else []), outcome)
  /\ log_validation_supervised _ _ _ item0 normalize make_grid self step metric loss
       x y pred
    = ([add_scalar "validation/supervised/loss" loss step;
        add_scalar "validation/supervised/metric" metric step; sup], Ok ())
  /\ log_validation_unsupervised _ _ _ item0 normalize make_grid self step metric loss
       x1 x2 pred pseudo_labels label_filter
    = ([add_scalar "validation/unsupervised/loss" loss step;
        add_scalar "validation/unsupervised/metric" metric step; unsup], Ok ()).
Proof.
  intros k images_due outcome sup unsup.
  subst images_due outcome sup unsup.
  unfold log_train_supervised, log_train_unsupervised,
    log_validation_supervised, log_validation_unsupervised, py_mod.
  fold k.
  destruct (decide (k = 0)) as [Hk | Hk].
  - rewrite !(bool_decide_eq_true_2 (k = 0)) by exact Hk.
    rewrite !(bool_decide_eq_false_2 (k <> 0 /\ (k | step))) by tauto.
    repeat split; destruct label_filter; reflexivity.
  - rewrite !(bool_decide_eq_false_2 (k = 0)) by exact Hk.
    destruct (decide (k | step)) as [Hd | Hd].
    + rewrite !(bool_decide_eq_true_2 (k <> 0 /\ (k | step))) by tauto.
      assert (Hm : step `mod` k = 0) by (apply py_mod_zero_iff; assumption).
      simpl. rewrite Hm. simpl.
      repeat split; destruct label_filter; reflexivity.
    + rewrite !(bool_decide_eq_false_2 (k <> 0 /\ (k | step))) by tauto.
      assert (Hm : step `mod` k <> 0)
        by (intros H; apply Hd, py_mod_zero_iff; assumption).
      simpl. rewrite !(bool_decide_eq_false_2 (step `mod` k = 0)) by exact Hm.
      repeat split; destruct label_filter; reflexivity.
Qed.
End Tensorboard.

End LoggerFacts.

(** ** torch_em/model/unetr.py *)
Module UnetrFacts.
Import Unetr.

Example forward_example :
  forward (example_model false false) example_input
  = Ok {| shape_of := {| batch := 2; channels := 1; height := 512; width := 768 |};
          history :=
            [({| batch := 2; channels := 1; height := 1024; width := 1024 |},
              interpolate (1024, 1024) "bilinear" false);
             ({| batch := 2; channels := 1; height := 1024; width := 1024 |},
              crop 512 768);
             ({| batch := 2; channels := 1; height := 512; width := 768 |},
              interpolate (512, 768) "bilinear" false)] |}.
Proof. vm_compute. reflexivity. Qed.

Lemma F_interpolate_ok x size mode align_corners :
  0 < height (shape_of x) -> 0 < width (shape_of x) -> 0 < size.1 -> 0 < size.2 ->
  F_interpolate x size mode align_corners
  = Ok (apply_op x (interpolate size mode align_corners)
          {| batch := batch (shape_of x); channels := channels (shape_of x);
             height := size.1; width := size.2 |}).
Proof.
  intros. unfold F_interpolate.
  rewrite !bool_decide_eq_true_2 by assumption. reflexivity.
Qed.




End UnetrFacts.

(** ** torch_em/data/datasets/medical/m2caiseg.py *)
Module M2caisegFacts.
Import M2caiseg.

Example val_paths_example :
  (_get_m2caiseg_paths sorted example_world "data" "val" false).2
  = Ok (["data/m2caiSeg dataset/trainval/images/b.jpg"],
        ["data/m2caiSeg dataset/preprocessed_masks/b.tif"]).
Proof. vm_compute. reflexivity. Qed.

(** A pair of grey arrays has equal shapes and is kept, but its
    relabelling raises: nothing is written and no list is returned. *)
Example grey_pair_raises :
  _get_m2caiseg_paths sorted example_world "data" "test" false
  = ([Makedirs "data"; Makedirs "data/m2caiSeg dataset/preprocessed/images";
      Makedirs "data/m2caiSeg dataset/preprocessed_masks"],
     Raise (ValueError [Lit "operands could not be broadcast together with shapes ";
                        FInts [480; 640]; Lit " "; FInts [3]])).
Proof. vm_compute. reflexivity. Qed.

Lemma relabel_ok_iff gt :
  relabel gt = Ok () <-> exists h w c, gt = [h; w; c] /\ (c = 3 \/ c = 1).
Proof.
  split.
  - unfold relabel. destruct (reverse gt) as [| c outer] eqn:Hrev; [discriminate |].
    destruct (bool_decide (c = 3) || bool_decide (c = 1)) eqn:Hc; [| discriminate].
    destruct outer as [| w [| h [| ? ?]]]; try discriminate. intros _.
    exists h, w, c. split.
    + rewrite <- (reverse_involutive gt), Hrev. reflexivity.
    + apply orb_true_iff in Hc as [Hc | Hc]; apply bool_decide_eq_true in Hc; tauto.
  - intros (h & w & c & -> & Hc). unfold relabel. cbn.
    destruct Hc as [-> | ->]; reflexivity.
Qed.

Lemma get_m2caiseg_data_dir w path download d :
  (get_m2caiseg_data w path download).2 = Ok d ->
  d = os_path_join path ["m2caiSeg dataset"].
Proof.
  unfold get_m2caiseg_data, mbind, io_bind, emit, lift, mret, io_ret.
  destruct (path_exists w _); simpl; [congruence |].
  destruct (download_source_kaggle w _ _ _); simpl; [| discriminate].
  destruct (unzip w _ _); simpl; [congruence | discriminate].
Qed.

Lemma get_m2caiseg_data_no_construct w path download :
  Forall (fun e => is_construct e = false) (get_m2caiseg_data w path download).1.
Proof.
  unfold get_m2caiseg_data, mbind, io_bind, emit, lift, mret, io_ret.
  destruct (path_exists w _); simpl; [repeat constructor |].
  destruct (download_source_kaggle w _ _ _); simpl; [| repeat constructor].
  destruct (unzip w _ _); simpl; repeat constructor.
Qed.

Section Loop.
  Variable w : world.
  Variables images_dir mask_dir : string.

(** Whatever the loop returns, it is the pairs of equal shape, in order:
    the image path as it is, and for the ground truth the path of the
    relabelled mask. *)
Lemma loop_result pairs written fimage_paths fgt_paths r :
  (_get_m2caiseg_paths_loop w images_dir mask_dir pairs written
     fimage_paths fgt_paths).2 = Ok r ->
  r = (fimage_paths ++ (filter (same_shape w) pairs).*1,
       fgt_paths ++ ((fun g => os_path_join mask_dir [stem g +:+ ".tif"])
                       <$> (filter (same_shape w) pairs).*2)).
Proof.
  revert written fimage_paths fgt_paths.
  induction pairs as [| [i g] rest IH]; intros written fi fg Hrun.
  - cbn in Hrun. injection Hrun as <-. cbn. rewrite !app_nil_r. reflexivity.
  - cbn [_get_m2caiseg_paths_loop] in Hrun. rewrite filter_cons.
    destruct (imread_shape w i) as [image | e] eqn:Ei; [| discriminate Hrun].
    rewrite io_bind_lift_ok in Hrun.
    destruct (imread_shape w g) as [gt | e] eqn:Eg; [| discriminate Hrun].
    rewrite io_bind_lift_ok in Hrun.
    destruct (decide (same_shape w (i, g))) as [Heq | Hne];
      unfold same_shape in *; cbn [fst snd] in *; rewrite Ei, Eg in *.
    + rewrite bool_decide_eq_false_2 in Hrun by tauto.
      destruct (_ && _).
      * apply IH in Hrun. rewrite Hrun.
        cbn [fmap list_fmap fst snd]. rewrite <- !app_assoc. reflexivity.
      * destruct (relabel gt); [| discriminate Hrun].
        rewrite io_bind_lift_ok, io_bind_emit in Hrun. cbn [snd] in Hrun.
        destruct (imwrite w (os_path_join images_dir _)); [| discriminate Hrun].
        rewrite io_bind_lift_ok, io_bind_emit in Hrun. cbn [snd] in Hrun.
        destruct (imwrite w (os_path_join mask_dir _)); [| discriminate Hrun].
        rewrite io_bind_lift_ok in Hrun.
        apply IH in Hrun. rewrite Hrun.
        cbn [fmap list_fmap fst snd]. rewrite <- !app_assoc. reflexivity.
    + rewrite bool_decide_eq_true_2 in Hrun by exact Hne.
      rewrite io_bind_emit in Hrun. cbn [snd] in Hrun. exact (IH _ _ _ Hrun).
Qed.

(** The loop returns when every file can be read and every pair kept can
    be relabelled and written. *)
Lemma loop_returns pairs written fimage_paths fgt_paths :
  Forall (fun p => is_ok (imread_shape w p.1) = true
                   /\ is_ok (imread_shape w p.2) = true) pairs ->
  Forall (fun p =>
            (exists h w' c, imread_shape w p.2 = Ok [h; w'; c] /\ (c = 3 \/ c = 1))
            /\ imwrite w (os_path_join images_dir [stem p.1 +:+ ".tif"]) = Ok ()
            /\ imwrite w (os_path_join mask_dir [stem p.2 +:+ ".tif"]) = Ok ())
         (filter (same_shape w) pairs) ->
  exists r,
    (_get_m2caiseg_paths_loop w images_dir mask_dir pairs written
       fimage_paths fgt_paths).2 = Ok r.
Proof.
  revert written fimage_paths fgt_paths.
  induction pairs as [| [i g] rest IH]; intros written fi fg Hread Hgood.
  - eexists. reflexivity.
  - cbn [_get_m2caiseg_paths_loop].
    apply Forall_cons in Hread as [[Hi Hg] Hread]. cbn [fst snd] in Hi, Hg.
    rewrite filter_cons in Hgood.
    destruct (imread_shape w i) as [image | e] eqn:Ei; [| discriminate Hi].
    destruct (imread_shape w g) as [gt | e] eqn:Eg; [| discriminate Hg].
    rewrite !io_bind_lift_ok.
    destruct (decide (same_shape w (i, g))) as [Heq | Hne];
      unfold same_shape in *; cbn [fst snd] in *; rewrite Ei, Eg in *.
    + apply Forall_cons in Hgood as [(Hrel & Hwi & Hwg) Hgood].
      cbn [fst snd] in Hrel, Hwi, Hwg.
      rewrite bool_decide_eq_false_2 by tauto.
      destruct (_ && _); [apply IH; assumption |].
      rewrite Eg in Hrel.
      assert (Hr : relabel gt = Ok ()).
      { apply relabel_ok_iff. destruct Hrel as (h & w' & c & [= ->] & Hc). eauto. }
      rewrite Hr, io_bind_lift_ok, io_bind_emit. cbn [snd].
      rewrite Hwi, io_bind_lift_ok, io_bind_emit. cbn [snd].
      rewrite Hwg, io_bind_lift_ok. apply IH; assumption.
    + rewrite bool_decide_eq_true_2 by exact Hne.
      rewrite io_bind_emit. cbn [snd]. apply IH; assumption.
Qed.

Lemma loop_no_construct pairs written fimage_paths fgt_paths :
  Forall (fun e => is_construct e = false)
    (_get_m2caiseg_paths_loop w images_dir mask_dir pairs written
       fimage_paths fgt_paths).1.
Proof.
  revert written fimage_paths fgt_paths.
  induction pairs as [| [i g] rest IH]; intros written fi fg.
  - constructor.
  - cbn [_get_m2caiseg_paths_loop].
    apply io_bind_trace; [constructor | intros image].
    apply io_bind_trace; [constructor | intros gt].
    case_bool_decide.
    + apply io_bind_trace; [repeat constructor | intros _; apply IH].
    + destruct (_ && _); [apply IH |].
      apply io_bind_trace; [constructor | intros _].
      apply io_bind_trace; [repeat constructor | intros _].
      apply io_bind_trace; [constructor | intros _].
      apply io_bind_trace; [repeat constructor | intros _].
      apply io_bind_trace; [constructor | intros _]. apply IH.
Qed.
End Loop.


(** [zip] stops with the shorter list. *)
Lemma zip_fst_take {A B} (l : list A) (k : list B) :
  (zip l k).*1 = take (length k) l.
Proof.
  revert k. induction l as [| a l IH]; intros [| b k]; simpl; try reflexivity.
  f_equal. apply IH.
Qed.

Lemma zip_snd_take {A B} (l : list A) (k : list B) :
  (zip l k).*2 = take (length l) k.
Proof.
  revert k. induction l as [| a l IH]; intros [| b k]; simpl; try reflexivity.
  f_equal. apply IH.
Qed.

Lemma kept_fst_sublist {A B} (P : A * B -> Prop) `{!forall x, Decision (P x)}
    (l : list A) (k : list B) :
  (filter P (zip l k)).*1 `sublist_of` l.
Proof.
  etransitivity; [apply fmap_sublist, sublist_filter |].
  rewrite zip_fst_take. apply sublist_take.
Qed.

Lemma kept_snd_sublist {A B} (P : A * B -> Prop) `{!forall x, Decision (P x)}
    (l : list A) (k : list B) :
  (filter P (zip l k)).*2 `sublist_of` k.
Proof.
  etransitivity; [apply fmap_sublist, sublist_filter |].
  rewrite zip_snd_take. apply sublist_take.
Qed.

Section Natsorted.
  Variable natsorted : list string -> list string.
  Hypothesis natsorted_perm : forall l, natsorted l ≡ₚ l.

(** The paths are gathered after the data folder is there, and the loop
    runs on the candidates of the split. *)
Lemma get_m2caiseg_paths_result w path split download data_dir :
  (get_m2caiseg_data w path download).2 = Ok data_dir ->
  let images sub := glob w (os_path_join data_dir [sub; "images"; "*.jpg"]) in
  let groundtruth sub := glob w (os_path_join data_dir [sub; "groundtruth"; "*.png"]) in
  let image_paths :=
    if bool_decide (split = "val")
    then filter (fun p => basename p ∉ basename <$> natsorted (images "train"))
           (natsorted (images "trainval"))
    else natsorted (images split) in
  let gt_paths :=
    if bool_decide (split = "val")
    then filter (fun p => basename p ∉ basename <$> natsorted (groundtruth "train"))
           (natsorted (groundtruth "trainval"))
    else natsorted (groundtruth split) in
  (_get_m2caiseg_paths natsorted w path split download).2
  = (_get_m2caiseg_paths_loop w (os_path_join data_dir ["preprocessed"; "images"])
       (os_path_join data_dir ["preprocessed_masks"])
       (zip image_paths gt_paths) [] [] []).2.
Proof.
  intros Hdata images groundtruth image_paths gt_paths.
  unfold _get_m2caiseg_paths. rewrite io_bind_result, Hdata.
  fold (images "train") (images "trainval") (groundtruth "train")
       (groundtruth "trainval") (images split) (groundtruth split).
  subst image_paths gt_paths.
  destruct (bool_decide (split = "val"));
    rewrite !io_bind_emit; cbn [fst snd]; reflexivity.
Qed.


(** C9, as the code has it.  With a split other than "train", "val" and
    "test" [get_m2caiseg_dataset] raises [AssertionError] before anything
    else happens.  With one of the three it gathers the paths.  When that
    raises, the error is the outcome and neither the counts are printed nor
    the breakpoint is reached.  When it returns, the next two things done
    are to print the two counts and to call [breakpoint()], whatever the
    arguments, and the dataset is constructed only after that: gathering
    constructs none, and a call that returns a dataset has constructed it
    after the breakpoint. *)
Theorem get_m2caiseg_dataset_breakpoint w path split patch_shape resize_inputs
    download kw :
  let run := get_m2caiseg_dataset natsorted w path split patch_shape
               resize_inputs download kw in
  (split ∉ ["train"; "val"; "test"] -> run = ([], Raise (AssertionError [])))
  /\ (split ∈ ["train"; "val"; "test"] ->
      Forall (fun e => is_construct e = false)
             (_get_m2caiseg_paths natsorted w path split download).1
      /\ (forall tr e,
            _get_m2caiseg_paths natsorted w path split download = (tr, Raise e) ->
            run = (tr, Raise e))
      /\ (forall tr image_paths gt_paths,
            _get_m2caiseg_paths natsorted w path split download
              = (tr, Ok (image_paths, gt_paths)) ->
            exists rest,
              run.1 = tr ++ Print [FInt (Z.of_nat (length image_paths));
                                   FInt (Z.of_nat (length gt_paths))]
                         :: Breakpoint :: rest
              /\ (forall c, run.2 = Ok c -> rest = [DefaultSegmentationDataset c]))).
Proof.
  intros run. subst run. unfold get_m2caiseg_dataset. split.
  - intros Hnot. rewrite bool_decide_eq_false_2 by exact Hnot. reflexivity.
  - intros Hin. rewrite bool_decide_eq_true_2 by exact Hin.
    split; [| split].
    + unfold _get_m2caiseg_paths. apply io_bind_trace.
      * apply get_m2caiseg_data_no_construct.
      * intros d. destruct (bool_decide (split = "val"));
          rewrite !io_bind_emit; cbn [fst snd];
          (constructor; [reflexivity |]); (constructor; [reflexivity |]);
          apply loop_no_construct.
    + intros tr e Hpaths. rewrite Hpaths. reflexivity.
    + intros tr ip gp Hpaths.
      rewrite Hpaths. unfold mbind at 1, io_bind at 1.
      rewrite !io_bind_emit. cbn [fst snd].
      destruct resize_inputs.
      * destruct (update_kwargs_for_resize_trafo w kw patch_shape true)
          as [[kw' ps'] | e] eqn:Hup.
        -- unfold lift, mbind, io_bind, emit, mret, io_ret. cbn.
           destruct (default_segmentation_dataset w _) eqn:Hds; cbn.
           ++ eexists. split; [reflexivity |]. intros c Hc. congruence.
           ++ eexists. split; [reflexivity |]. intros c Hc. discriminate.
        -- unfold lift, mbind, io_bind. cbn.
           exists []. split; [reflexivity |].
           intros c Hc. discriminate.
      * unfold lift, mbind, io_bind, emit, mret, io_ret. cbn.
        destruct (default_segmentation_dataset w _) eqn:Hds; cbn.
        -- eexists. split; [reflexivity |]. intros c Hc. congruence.
        -- eexists. split; [reflexivity |]. intros c Hc. discriminate.
Qed.
End Natsorted.




(** C9, as stated, fails when the data is not there and no download is
    asked for, the default: the call with the valid split "train" raises
    while gathering the paths, prints nothing and reaches no breakpoint. *)
Lemma get_m2caiseg_dataset_missing_data :
  get_m2caiseg_dataset sorted example_world "elsewhere" "train" [256; 256]
    false false ∅
  = ([Makedirs "elsewhere";
      DownloadSourceKaggle "elsewhere" "salmanmaq/m2caiseg" false],
     Raise (RuntimeError [Lit "Cannot find the data at "; FStr "elsewhere";
                          Lit ", but download was set to False."]))
  /\ "train" ∈ ["train"; "val"; "test"]
  /\ Breakpoint ∉ [Makedirs "elsewhere";
                   DownloadSourceKaggle "elsewhere" "salmanmaq/m2caiseg" false].
Proof.
  split; [vm_compute; reflexivity |].
  split; [left |].
  intros Hin. repeat (apply elem_of_cons in Hin as [Hin | Hin]; [discriminate Hin |]).
  inversion Hin.
Qed.

Lemma get_m2caiseg_dataset_breakpoint_witness :
  get_m2caiseg_dataset sorted example_world "data" "validation" [256; 256]
    false false ∅ = ([], Raise (AssertionError []))
  /\ exists rest,
      (get_m2caiseg_dataset sorted example_world "data" "val" [256; 256]
         false false ∅).1
      = [Makedirs "data"; Makedirs "data/m2caiSeg dataset/preprocessed/images";
         Makedirs "data/m2caiSeg dataset/preprocessed_masks";
         Imwrite "data/m2caiSeg dataset/preprocessed/images/b.tif";
         Imwrite "data/m2caiSeg dataset/preprocessed_masks/b.tif";
         Print [Lit "This pair of image and labels mismatch."]]
        ++ Print [FInt 1; FInt 1] :: Breakpoint :: rest.
Proof.
  split.
  - apply (proj1 (get_m2caiseg_dataset_breakpoint sorted example_world
      "data" "validation" [256; 256] false false ∅)).
    apply (bool_decide_unpack _). vm_compute. exact I.
  - destruct (proj2 (get_m2caiseg_dataset_breakpoint sorted example_world
      "data" "val" [256; 256] false false ∅)
      ltac:(apply (bool_decide_unpack _); vm_compute; exact I))
      as (_ & _ & Hok).
    destruct (Hok
      [Makedirs "data"; Makedirs "data/m2caiSeg dataset/preprocessed/images";
       Makedirs "data/m2caiSeg dataset/preprocessed_masks";
       Imwrite "data/m2caiSeg dataset/preprocessed/images/b.tif";
       Imwrite "data/m2caiSeg dataset/preprocessed_masks/b.tif";
       Print [Lit "This pair of image and labels mismatch."]]
                  ["data/m2caiSeg dataset/trainval/images/b.jpg"]
                  ["data/m2caiSeg dataset/preprocessed_masks/b.tif"]
                  ltac:(vm_compute; reflexivity)) as [rest [Hrest _]].
    exists rest. exact Hrest.
Defined.

End M2caisegFacts.

(** ** torch_em/data/datasets/medical/palm.py *)
Module PalmFacts.
Import Palm.

Example str_replace_suffix :
  str_replace ".bmp" "_preprocessed.tif" "Disc Masks/H0001.bmp"
  = "Disc Masks/H0001_preprocessed.tif".
Proof. vm_compute. reflexivity. Qed.

Example str_replace_all :
  str_replace "ab" "x" "ababcab" = "xxcx" /\ str_replace "aa" "b" "aaa" = "ba"
  /\ str_replace "" "-" "abc" = "-a-b-c-".
Proof. vm_compute. repeat split. Qed.

Example get_palm_paths_example :
  (get_palm_paths sorted example_world example_files "data" "Training" "disc" false)
  = ([Imwrite "data/PALM/Training/Disc Masks/H0001_preprocessed.tif" [0; 1; 1; 0]],
     Ok (<["data/PALM/Training/Disc Masks/H0001_preprocessed.tif" := [0; 1; 1; 0]]>
           example_files,
         (["data/PALM/Training/Images/H0001.jpg"; "data/PALM/Training/Images/H0002.jpg"],
          ["data/PALM/Training/Disc Masks/H0001_preprocessed.tif";
           "data/PALM/Training/Disc Masks/H0002_preprocessed.tif"]))).
Proof. vm_compute. reflexivity. Qed.

(** After the download the folder [__MACOSX] is removed; when the archive
    held none, [get_palm_data] raises although the data is in place. *)
Example get_palm_data_without_macosx :
  get_palm_data
    {| path_exists := fun _ => false; glob := fun _ => [];
       download_source := fun _ _ _ _ => Ok (); unzip := fun _ _ => Ok ();
       rmtree := fun p => Raise (FileNotFoundError p);
       imwrite := fun _ _ => Ok () |} "data" true
  = ([Makedirs "data";
      DownloadSource "data/data.zip" URL true CHECKSUM;
      Unzip "data/data.zip" "data";
      Rmtree "data/__MACOSX"],
     Raise (FileNotFoundError "data/__MACOSX")).
Proof. vm_compute. reflexivity. Qed.

Lemma writes_cons_imwrite p d tr : writes (Imwrite p d :: tr) = p :: writes tr.
Proof. reflexivity. Qed.

(** The loop, started on files [files] that extend [files0], the files at
    the call, when every label file was there at the call, no two label
    files share a target and every target that was not there can be
    written. *)
Lemma preprocess_labels_loop_spec w (files0 : gmap string image) pairs :
  forall files : gmap string image,
  files0 ⊆ files ->
  (forall l n, (l, n) ∈ pairs -> is_Some (files0 !! l)) ->
  NoDup pairs.*2 ->
  (forall l n data, (l, n) ∈ pairs -> files0 !! l = Some data ->
     files0 !! n = None -> imwrite w n (eq_zero_as_int data) = Ok ()) ->
  exists tr files',
    _preprocess_labels_loop w files pairs = (tr, Ok files')
    /\ files ⊆ files'
    /\ (forall l n data, (l, n) ∈ pairs -> files0 !! l = Some data ->
          files !! n = None -> files' !! n = Some (eq_zero_as_int data))
    /\ writes tr `sublist_of` pairs.*2
    /\ (forall p, p ∈ writes tr -> files !! p = None).
Proof.
  induction pairs as [| [l1 n1] rest IH]; intros files Hsub Hex Hnd Hwr.
  - exists [], files. repeat split; try reflexivity.
    + intros l n data Hin. inversion Hin.
    + intros p Hin. inversion Hin.
  - cbn [fmap list_fmap snd] in Hnd. apply NoDup_cons in Hnd as [Hn1 Hnd].
    assert (Hex' : forall l n, (l, n) ∈ rest -> is_Some (files0 !! l)).
    { intros l n Hin. apply (Hex l n). right. exact Hin. }
    assert (Hwr' : forall l n data, (l, n) ∈ rest -> files0 !! l = Some data ->
              files0 !! n = None -> imwrite w n (eq_zero_as_int data) = Ok ()).
    { intros l n data Hin. apply (Hwr l n data). right. exact Hin. }
    cbn [_preprocess_labels_loop]. case_bool_decide as Hthere.
    + destruct (IH files Hsub Hex' Hnd Hwr')
        as (tr & files' & Hrun & Hext & Hnew & Hw & Hfresh).
      exists tr, files'. repeat split; try assumption.
      * intros l n data Hin Hl Hnone.
        apply elem_of_cons in Hin as [Heq | Hin].
        -- injection Heq as -> ->. rewrite Hnone in Hthere.
           destruct Hthere as [? Hthere]. discriminate.
        -- eapply Hnew; eassumption.
      * cbn [fmap list_fmap snd]. apply sublist_cons. exact Hw.
    + assert (Hnone : files !! n1 = None).
      { destruct (files !! n1) eqn:E; [| reflexivity].
        exfalso. apply Hthere. eexists. reflexivity. }
      assert (Hnone0 : files0 !! n1 = None).
      { destruct (files0 !! n1) eqn:E; [| reflexivity].
        rewrite (lookup_weaken _ _ _ _ E Hsub) in Hnone. discriminate. }
      destruct (Hex l1 n1 ltac:(left)) as [data1 Hdata1].
      assert (Hread : imread files l1 = Ok data1).
      { unfold imread. rewrite (lookup_weaken _ _ _ _ Hdata1 Hsub). reflexivity. }
      assert (Hsub' : files0 ⊆ <[n1 := eq_zero_as_int data1]> files).
      { etransitivity; [exact Hsub |]. apply insert_subseteq. exact Hnone. }
      destruct (IH _ Hsub' Hex' Hnd Hwr')
        as (tr & files' & Hrun & Hext & Hnew & Hw & Hfresh).
      exists (Imwrite n1 (eq_zero_as_int data1) :: tr), files'.
      split.
      { rewrite Hread, io_bind_lift_ok, io_bind_emit.
        rewrite (Hwr l1 n1 data1 ltac:(left) Hdata1 Hnone0), io_bind_lift_ok, Hrun.
        reflexivity. }
      split.
      { etransitivity; [| exact Hext]. apply insert_subseteq. exact Hnone. }
      split.
      { intros l n data Hin Hl Hn.
        apply elem_of_cons in Hin as [Heq | Hin].
        - injection Heq as -> ->.
          assert (data = data1) as -> by congruence.
          apply (lookup_weaken _ _ _ _ (lookup_insert_eq _ _ _) Hext).
        - apply (Hnew l n data Hin Hl).
          rewrite lookup_insert_ne; [exact Hn |].
          intros ->. apply Hn1. apply list_elem_of_fmap. exists (l, n). split; [reflexivity | exact Hin]. }
      split.
      { rewrite writes_cons_imwrite. cbn [fmap list_fmap snd].
        apply sublist_skip. exact Hw. }
      intros p Hin. rewrite writes_cons_imwrite in Hin.
      apply elem_of_cons in Hin as [-> | Hin]; [exact Hnone |].
      specialize (Hfresh p Hin).
      apply lookup_insert_None in Hfresh as [Hfresh _]. exact Hfresh.
Qed.

(** The loop raises as soon as a target that was not there cannot be
    written; [files] holds the files at the call and targets written since,
    none of them a target still to come. *)
Lemma preprocess_labels_loop_raises w (files0 : gmap string image) pairs l n data :
  forall files : gmap string image,
  files0 ⊆ files ->
  (forall l n, (l, n) ∈ pairs -> is_Some (files0 !! l)) ->
  NoDup pairs.*2 ->
  (forall n, n ∈ pairs.*2 -> files !! n = files0 !! n) ->
  (l, n) ∈ pairs -> files0 !! l = Some data -> files0 !! n = None ->
  imwrite w n (eq_zero_as_int data) <> Ok () ->
  exists tr e, _preprocess_labels_loop w files pairs = (tr, Raise e).
Proof.
  induction pairs as [| [l1 n1] rest IH]; intros files Hsub Hex Hnd Hsame Hin Hl Hn Hfail.
  - inversion Hin.
  - cbn [fmap list_fmap snd] in Hnd, Hsame. apply NoDup_cons in Hnd as [Hn1 Hnd].
    assert (Hex' : forall l n, (l, n) ∈ rest -> is_Some (files0 !! l)).
    { intros l' n' Hin'. apply (Hex l' n'). right. exact Hin'. }
    cbn [_preprocess_labels_loop]. case_bool_decide as Hthere.
    + apply elem_of_cons in Hin as [Heq | Hin].
      * injection Heq as <- <-. rewrite (Hsame n ltac:(left)), Hn in Hthere.
        destruct Hthere as [? Hthere]. discriminate.
      * apply (IH files Hsub Hex' Hnd); try assumption.
        intros n' Hn'. apply Hsame. right. exact Hn'.
    + assert (Hnone : files !! n1 = None).
      { destruct (files !! n1) eqn:E; [| reflexivity].
        exfalso. apply Hthere. eexists. reflexivity. }
      destruct (Hex l1 n1 ltac:(left)) as [data1 Hdata1].
      assert (Hread : imread files l1 = Ok data1).
      { unfold imread. rewrite (lookup_weaken _ _ _ _ Hdata1 Hsub). reflexivity. }
      rewrite Hread, io_bind_lift_ok, io_bind_emit.
      destruct (imwrite w n1 (eq_zero_as_int data1)) as [[] | e] eqn:Hw.
      * rewrite io_bind_lift_ok.
        apply elem_of_cons in Hin as [Heq | Hin].
        { injection Heq as <- <-. assert (data1 = data) as -> by congruence.
          contradiction. }
        destruct (IH (<[n1 := eq_zero_as_int data1]> files)) as (tr & e & Hrun);
          try assumption.
        { etransitivity; [exact Hsub |]. apply insert_subseteq. exact Hnone. }
        { intros n' Hn'. rewrite lookup_insert_ne by (intros ->; contradiction).
          apply Hsame. right. exact Hn'. }
        rewrite Hrun. eexists _, e. reflexivity.
      * eexists _, e. reflexivity.
Qed.

Lemma zip_fmap_self {A B} (f : A -> B) (l : list A) :
  zip l (f <$> l) = (fun x => (x, f x)) <$> l.
Proof. induction l as [| a l IH]; simpl; [reflexivity |]. f_equal. exact IH. Qed.

Lemma eq_zero_as_int_lookup (label : image) (i : nat) (v : Z) :
  label !! i = Some v ->
  eq_zero_as_int label !! i = Some (if bool_decide (v = 0) then 1 else 0).
Proof. intros H. unfold eq_zero_as_int. rewrite list_lookup_fmap, H. reflexivity. Qed.

Section Natsorted.
  Variable natsorted : list string -> list string.

End Natsorted.




(** *** Running the preprocessing again *)

Lemma preprocess_labels_loop_targets w pairs :
  forall (files : gmap string image) tr files',
  _preprocess_labels_loop w files pairs = (tr, Ok files') ->
  files ⊆ files' /\ forall l n, (l, n) ∈ pairs -> is_Some (files' !! n).
Proof.
  induction pairs as [| [l1 n1] rest IH]; intros files tr files' Hrun.
  - injection Hrun as <- <-. split; [reflexivity |].
    intros l n Hin. inversion Hin.
  - cbn [_preprocess_labels_loop] in Hrun. case_bool_decide as Hthere.
    + destruct (IH _ _ _ Hrun) as [Hsub Htargets]. split; [exact Hsub |].
      intros l n Hin. apply elem_of_cons in Hin as [[= -> ->] | Hin].
      * destruct Hthere as [d Hd]. exists d. exact (lookup_weaken _ _ _ _ Hd Hsub).
      * eapply Htargets, Hin.
    + assert (Hnone : files !! n1 = None).
      { destruct (files !! n1) eqn:E; [| reflexivity].
        exfalso. apply Hthere. eexists. reflexivity. }
      destruct (imread files l1) as [label | e]; [| discriminate Hrun].
      rewrite io_bind_lift_ok, io_bind_emit in Hrun.
      destruct (imwrite w n1 (eq_zero_as_int label)) as [[] | e]; [| discriminate Hrun].
      rewrite io_bind_lift_ok in Hrun.
      destruct (_preprocess_labels_loop w (<[n1 := eq_zero_as_int label]> files) rest)
        as [t r] eqn:Hrest.
      cbn [fst snd] in Hrun. injection Hrun as <- ->.
      destruct (IH _ _ _ Hrest) as [Hsub Htargets]. split.
      * etransitivity; [| exact Hsub]. apply insert_subseteq. exact Hnone.
      * intros l n Hin. apply elem_of_cons in Hin as [[= -> ->] | Hin].
        -- exists (eq_zero_as_int label).
           exact (lookup_weaken _ _ _ _ (lookup_insert_eq _ _ _) Hsub).
        -- eapply Htargets, Hin.
Qed.

Lemma preprocess_labels_loop_done w (files : gmap string image) pairs :
  (forall l n, (l, n) ∈ pairs -> is_Some (files !! n)) ->
  _preprocess_labels_loop w files pairs = ([], Ok files).
Proof.
  induction pairs as [| [l1 n1] rest IH]; intros Hthere; [reflexivity |].
  cbn [_preprocess_labels_loop].
  rewrite bool_decide_eq_true_2 by (apply (Hthere l1 n1); left).
  apply IH. intros l n Hin. apply (Hthere l n). right. exact Hin.
Qed.



End PalmFacts.
